(** * The Supabase log shipper of the Slack bot

    A shallow embedding of
    [backend/onyx/onyxbot/slack/handlers/supabase/supabase.py]: the class
    [SupabaseLogger] with its credential fields, the token life cycle
    ([_get_valid_token], [_refresh_token], [_authenticate]) and the shipping
    of one record ([log_success], [_insert_log]).

    The methods are written in a state-and-exception monad over the object
    and a trace of what the process did to the outside world; the outside
    world (the three HTTP endpoints and the clock) is a parameter, so that a
    statement about every world is a statement about every outcome of the
    HTTP calls.

    What is taken for granted: a call of [logger] returns; the exceptions
    are those [except Exception] catches; the numbers of a JSON body are
    integers; a [tzinfo] object that gives one datetime a UTC offset gives
    every datetime one. *)

From stdpp Require Import gmap strings list.
From Stdlib Require Import ZArith Lia.

Set Warnings "-register-all".

Open Scope string_scope.
Open Scope list_scope.
Open Scope Z_scope.

(** ** Python values

    A decoded JSON body is a Python value: [None], a bool, an int, a str, a
    list or a dict keyed by strings. JSON numbers are taken to be integers;
    a fractional number has no counterpart here. *)

Inductive pyval :=
| PyNone
| PyBool (b : bool)
| PyInt (z : Z)
| PyStr (s : string)
| PyList (l : list pyval)
| PyDict (d : gmap string pyval).

(** [bool(v)]: what [if v] and [not v] test. *)
Definition truthy (v : pyval) : bool :=
  match v with
  | PyNone => false
  | PyBool b => b
  | PyInt z => negb (z =? 0)
  | PyStr s => negb (String.eqb s "")
  | PyList l => match l with [] => false | _ :: _ => true end
  | PyDict d => negb (Nat.eqb (size d) 0)
  end.

(** [self.expires_at] is [None] or an int; [bool] of it. *)
Definition truthy_int (e : option Z) : bool :=
  match e with
  | None => false
  | Some z => negb (z =? 0)
  end.

(** The exceptions the module can meet. [RequestException] stands for
    whatever [requests.post] itself raises (no connection, timeout, a URL
    built from an unset variable, a body that does not serialise). *)
Inductive exn :=
| RequestException
| HTTPError (status : Z)
| JSONDecodeError
| KeyError (key : string)
| TypeError
| AttributeError
| UnboundLocalError (name : string).

Inductive result (A : Type) :=
| Ok (a : A)
| Raise (e : exn).
Arguments Ok {A} a.
Arguments Raise {A} e.

(** ** Dates

    A [datetime] is its wall-clock reading in microseconds since
    1970-01-01T00:00:00, the identity of its [tzinfo] object and what
    [utcoffset()] returns for it, in microseconds ([None]: naive; the
    identity is of no account then). One zone object gives different
    offsets to datetimes on either side of a change of its clocks. *)
Record datetime := {
  dt_wall : Z;
  dt_tzinfo : nat;
  dt_utcoffset : option Z
}.

(** [a - b] on datetimes, in microseconds. Python refuses to subtract a
    naive datetime from an aware one and conversely. Two aware datetimes
    that share one [tzinfo] object are subtracted as wall clocks, their
    offsets ignored; two with different [tzinfo] objects are compared in
    UTC. *)
Definition datetime_sub (a b : datetime) : result Z :=
  match dt_utcoffset a, dt_utcoffset b with
  | None, None => Ok (dt_wall a - dt_wall b)
  | Some oa, Some ob =>
      if Nat.eqb (dt_tzinfo a) (dt_tzinfo b) then Ok (dt_wall a - dt_wall b)
      else Ok ((dt_wall a - oa) - (dt_wall b - ob))
  | _, _ => Raise TypeError
  end.

(** [timezone.utc] is one object. *)
Definition timezone_utc : nat := 0%nat.

(** [datetime.now(timezone.utc)] for a clock reading [us] (microseconds
    since the epoch), and [int(d.timestamp())] of it: [int] truncates
    towards zero. *)
Definition utc_datetime (us : Z) : datetime :=
  {| dt_wall := us; dt_tzinfo := timezone_utc; dt_utcoffset := Some 0 |}.

Definition int_timestamp (us : Z) : Z := Z.quot us 1000000.

(** ** The record that is shipped *)

(** The arguments of [log_success]. *)
Record LogArgs := {
  user_id : string;
  channel_id : string;
  thread_id : string;
  user_message : string;
  response_text : string;
  request_time : datetime;
  response_time : datetime;
  bot_id : string;
  bot_name : string;
  system_prompt : string;
  input_attachments : option (gmap string pyval);
  chat_history_length : option Z;
  output_attachments : option (gmap string pyval)
}.

(** The dict [log_entry]; the three timestamps stand for their ISO texts
    and [le_duration] for the seconds of the difference, kept in
    microseconds. *)
Record LogEntry := {
  le_created_at : datetime;
  le_request_timestamp : datetime;
  le_response_timestamp : datetime;
  le_bot_id : string;
  le_type_of_bot : string;
  le_user_id : string;
  le_channel_id : string;
  le_thread_id : string;
  le_user_message : string;
  le_input_attachments : gmap string pyval;
  le_system_prompt : string;
  le_chat_history_length : Z;
  le_response_text : string;
  le_duration : Z;
  le_output_attachments : gmap string pyval
}.

(** [d or {}] and [n or 0]. *)
Definition dict_or_empty (d : option (gmap string pyval)) : gmap string pyval :=
  match d with
  | Some m => if truthy (PyDict m) then m else ∅
  | None => ∅
  end.

Definition int_or_zero (n : option Z) : Z :=
  match n with
  | Some z => if truthy (PyInt z) then z else 0
  | None => 0
  end.

(** ** The object *)

Record SupabaseLogger := {
  url : option string;
  api_key : option string;
  auth_email : option string;
  auth_password : option string;
  access_token : pyval;
  refresh_token : pyval;
  expires_at : option Z
}.

(** [os.getenv] for the four variables read at construction. *)
Record Environ := {
  SUPABASE_URL : option string;
  SUPABASE_KEY : option string;
  SUPABASE_AUTH_EMAIL : option string;
  SUPABASE_AUTH_PASSWORD : option string
}.

Definition __init__ (env : Environ) : SupabaseLogger :=
  {| url := SUPABASE_URL env;
     api_key := SUPABASE_KEY env;
     auth_email := SUPABASE_AUTH_EMAIL env;
     auth_password := SUPABASE_AUTH_PASSWORD env;
     access_token := PyNone;
     refresh_token := PyNone;
     expires_at := None |}.

Definition with_access_token (v : pyval) (s : SupabaseLogger) : SupabaseLogger :=
  {| url := url s; api_key := api_key s; auth_email := auth_email s;
     auth_password := auth_password s;
     access_token := v;
     refresh_token := refresh_token s;
     expires_at := expires_at s |}.

Definition with_refresh_token (v : pyval) (s : SupabaseLogger) : SupabaseLogger :=
  {| url := url s; api_key := api_key s; auth_email := auth_email s;
     auth_password := auth_password s;
     access_token := access_token s;
     refresh_token := v;
     expires_at := expires_at s |}.

Definition with_expires_at (e : option Z) (s : SupabaseLogger) : SupabaseLogger :=
  {| url := url s; api_key := api_key s; auth_email := auth_email s;
     auth_password := auth_password s;
     access_token := access_token s;
     refresh_token := refresh_token s;
     expires_at := e |}.

(** The Credential of the data model: the three mutable fields. *)
Definition credential (s : SupabaseLogger) : pyval * pyval * option Z :=
  (access_token s, refresh_token s, expires_at s).

(** ** The outside world *)

(** What [requests.post] sends, by endpoint. *)
Inductive request :=
| PostPasswordGrant (base apikey email password : option string)
| PostRefreshGrant (base apikey : option string) (token : pyval)
| PostBotLogs (base apikey : option string) (bearer : pyval) (entry : LogEntry).

Inductive endpoint := PasswordGrant | RefreshGrant | BotLogs.

Definition endpoint_of (r : request) : endpoint :=
  match r with
  | PostPasswordGrant _ _ _ _ => PasswordGrant
  | PostRefreshGrant _ _ _ => RefreshGrant
  | PostBotLogs _ _ _ _ => BotLogs
  end.

Definition endpoint_eqb (a b : endpoint) : bool :=
  match a, b with
  | PasswordGrant, PasswordGrant | RefreshGrant, RefreshGrant | BotLogs, BotLogs => true
  | _, _ => false
  end.

(** A [requests.Response]: [json] is [None] when [response.json()] raises. *)
Record Response := {
  status_code : Z;
  text : string;
  json : option pyval
}.

Inductive post_outcome :=
| PostRaises
| PostReturns (r : Response).

(** The world answers the n-th call to each endpoint and the n-th reading
    of the clock (microseconds since the epoch, UTC). *)
Record world := {
  password_grant : nat → post_outcome;
  refresh_grant : nat → post_outcome;
  bot_logs : nat → post_outcome;
  utcnow : nat → Z
}.

Definition answer (w : world) (ep : endpoint) : nat → post_outcome :=
  match ep with
  | PasswordGrant => password_grant w
  | RefreshGrant => refresh_grant w
  | BotLogs => bot_logs w
  end.

(** ** What the process does, in order *)

Inductive level := DEBUG | INFO | WARNING | ERROR.

Inductive log_arg :=
| ArgExn (e : exn)
| ArgText (s : string)
| ArgEntry (entry : LogEntry).

(** [EvPost]: one call of [requests.post]. [EvNow]: one reading of the
    clock. [EvLog]: one call of [logger], with the literal part of its
    message and what is formatted into it. [EvInvalidate] marks the
    assignment [self.access_token = None] of [log_success]; it is a ghost
    event, kept so that invalidations can be counted. *)
Inductive event :=
| EvPost (r : request)
| EvNow
| EvLog (lvl : level) (msg : string) (args : list log_arg)
| EvInvalidate.

Definition is_post (ep : endpoint) (e : event) : bool :=
  match e with
  | EvPost r => endpoint_eqb (endpoint_of r) ep
  | _ => false
  end.

Definition is_now (e : event) : bool :=
  match e with EvNow => true | _ => false end.

Definition is_invalidate (e : event) : bool :=
  match e with EvInvalidate => true | _ => false end.

Fixpoint count (p : event → bool) (tr : list event) : nat :=
  match tr with
  | [] => O
  | e :: tr' => if p e then S (count p tr') else count p tr'
  end.

(** Calls of [requests.post] to an endpoint, clock readings and
    invalidations in a trace. *)
Definition posts (ep : endpoint) (tr : list event) : nat := count (is_post ep) tr.
Definition clock_reads (tr : list event) : nat := count is_now tr.
Definition invalidations (tr : list event) : nat := count is_invalidate tr.

(** The object together with the trace so far, most recent event first. *)
Record machine := {
  self : SupabaseLogger;
  trace : list event
}.

Definition fresh (env : Environ) : machine :=
  {| self := __init__ env; trace := [] |}.

(** ** The monad of the methods *)

Definition M (A : Type) : Type := machine → result A * machine.

Definition ret {A} (a : A) : M A := λ m, (Ok a, m).

Definition bind {A B} (c : M A) (k : A → M B) : M B :=
  λ m, match c m with
       | (Ok a, m') => k a m'
       | (Raise e, m') => (Raise e, m')
       end.

Definition raise {A} (e : exn) : M A := λ m, (Raise e, m).

(** [try: body  except Exception as e: handler e]. *)
Definition try_except {A} (body : M A) (handler : exn → M A) : M A :=
  λ m, match body m with
       | (Ok a, m') => (Ok a, m')
       | (Raise e, m') => handler e m'
       end.

(** [try: response = call; body response  except Exception as e: handler e]
    where the handler reads the local [response]: it is unbound ([None])
    when [call] itself raised. *)
Definition try_with_response {A} (call : M Response) (body : Response → M A)
    (handler : exn → option Response → M A) : M A :=
  λ m, match call m with
       | (Raise e, m') => handler e None m'
       | (Ok response, m') =>
           match body response m' with
           | (Ok a, m'') => (Ok a, m'')
           | (Raise e, m'') => handler e (Some response) m''
           end
       end.

Declare Scope py_scope.
Delimit Scope py_scope with py.
Notation "x <- c ;; k" := (bind c (λ x, k))
  (at level 100, c at next level, right associativity) : py_scope.
Notation "c ;; k" := (bind c (λ _, k))
  (at level 100, right associativity) : py_scope.
Open Scope py_scope.

(** A pure computation that may raise. *)
Definition lift {A} (r : result A) : M A := λ m, (r, m).

Definition get_self : M SupabaseLogger := λ m, (Ok (self m), m).

Definition modify_self (f : SupabaseLogger → SupabaseLogger) : M unit :=
  λ m, (Ok tt, {| self := f (self m); trace := trace m |}).

Definition emit (e : event) : M unit :=
  λ m, (Ok tt, {| self := self m; trace := e :: trace m |}).

Definition logger (lvl : level) (msg : string) (args : list log_arg) : M unit :=
  emit (EvLog lvl msg args).

Section Methods.

Variable w : world.

(** [requests.post(...)]: the call is recorded, then the world answers. *)
Definition requests_post (r : request) : M Response :=
  λ m, let n := posts (endpoint_of r) (trace m) in
       let m' := {| self := self m; trace := EvPost r :: trace m |} in
       match answer w (endpoint_of r) n with
       | PostRaises => (Raise RequestException, m')
       | PostReturns response => (Ok response, m')
       end.

(** [datetime.now(timezone.utc)], as microseconds since the epoch. *)
Definition datetime_now : M Z :=
  λ m, (Ok (utcnow w (clock_reads (trace m))),
        {| self := self m; trace := EvNow :: trace m |}).

(** [response.raise_for_status()]: statuses 400 to 599 raise. *)
Definition raise_for_status (response : Response) : M unit :=
  if (400 <=? status_code response) && (status_code response <? 600)
  then raise (HTTPError (status_code response))
  else ret tt.

(** [response.json()]. *)
Definition response_json (response : Response) : M pyval :=
  match json response with
  | Some data => ret data
  | None => raise JSONDecodeError
  end.

(** [data[key]] for a string [key]. *)
Definition py_getitem (data : pyval) (key : string) : M pyval :=
  match data with
  | PyDict d =>
      match d !! key with
      | Some v => ret v
      | None => raise (KeyError key)
      end
  | _ => raise TypeError
  end.

(** [data.get(key, default)]. *)
Definition py_get (data : pyval) (key : string) (default : pyval) : M pyval :=
  match data with
  | PyDict d =>
      match d !! key with
      | Some v => ret v
      | None => ret default
      end
  | _ => raise AttributeError
  end.

(** [n + v] for an int [n]. *)
Definition py_int_add (n : Z) (v : pyval) : M Z :=
  match v with
  | PyInt z => ret (n + z)
  | PyBool b => ret (n + (if b then 1 else 0))
  | _ => raise TypeError
  end.

(** Lines 75-101. The handler's [hasattr(response, 'text')] reads the
    local [response], which is unbound when [requests.post] raised. *)
Definition _refresh_token : M unit :=
  try_with_response
    (s <- get_self ;;
     requests_post (PostRefreshGrant (url s) (api_key s) (refresh_token s)))
    (λ response,
       raise_for_status response ;;
       data <- response_json response ;;
       at_ <- py_getitem data "access_token" ;;
       modify_self (with_access_token at_) ;;
       rt <- py_getitem data "refresh_token" ;;
       modify_self (with_refresh_token rt) ;;
       now <- datetime_now ;;
       expires_in <- py_get data "expires_in" (PyInt 3600) ;;
       expires <- py_int_add (int_timestamp now) expires_in ;;
       modify_self (with_expires_at (Some expires)) ;;
       logger INFO "Successfully refreshed Supabase token" [])
    (λ e response,
       logger ERROR "Supabase token refresh failed: " [ArgExn e] ;;
       match response with
       | None => raise (UnboundLocalError "response")
       | Some r => logger DEBUG "Refresh response: " [ArgText (text r)] ;; raise e
       end).

(** Lines 103-130. *)
Definition _authenticate : M unit :=
  try_with_response
    (s <- get_self ;;
     requests_post (PostPasswordGrant (url s) (api_key s) (auth_email s) (auth_password s)))
    (λ response,
       raise_for_status response ;;
       data <- response_json response ;;
       at_ <- py_getitem data "access_token" ;;
       modify_self (with_access_token at_) ;;
       rt <- py_getitem data "refresh_token" ;;
       modify_self (with_refresh_token rt) ;;
       now <- datetime_now ;;
       expires_in <- py_get data "expires_in" (PyInt 3600) ;;
       expires <- py_int_add (int_timestamp now) expires_in ;;
       modify_self (with_expires_at (Some expires)) ;;
       logger INFO "Successfully authenticated with Supabase" [])
    (λ e response,
       logger ERROR "Supabase authentication failed: " [ArgExn e] ;;
       match response with
       | None => raise (UnboundLocalError "response")
       | Some r => logger DEBUG "Auth response: " [ArgText (text r)] ;; raise e
       end).

(** [self.expires_at and current_time >= self.expires_at]. *)
Definition token_expired (s : SupabaseLogger) (current_time : Z) : bool :=
  match expires_at s with
  | Some e => truthy_int (Some e) && (current_time >=? e)
  | None => false
  end.

(** [return self.access_token]. *)
Definition return_access_token : M pyval :=
  s <- get_self ;; ret (access_token s).

(** Lines 45-73. *)
Definition _get_valid_token : M pyval :=
  s <- get_self ;;
  if negb (truthy (access_token s)) then
    _authenticate ;; return_access_token
  else
    now <- datetime_now ;;
    let current_time := int_timestamp now in
    s <- get_self ;;
    if token_expired s current_time && truthy (refresh_token s) then
      try_except
        (_refresh_token ;; return_access_token)
        (λ e,
           logger WARNING "Token refresh failed, falling back to full auth: " [ArgExn e] ;;
           _authenticate ;; return_access_token)
    else if token_expired s current_time then
      _authenticate ;; return_access_token
    else
      return_access_token.

(** Lines 199-219. *)
Definition _insert_log (log_entry : LogEntry) : M unit :=
  token <- _get_valid_token ;;
  s <- get_self ;;
  response <- requests_post (PostBotLogs (url s) (api_key s) token log_entry) ;;
  raise_for_status response ;;
  logger INFO "Successfully logged bot response to Supabase" [].

(** Lines 164-180: the dict literal, given the clock reading for
    ["created_at"] and the difference for ["duration"]. *)
Definition log_entry_dict (a : LogArgs) (created duration : Z) : LogEntry :=
  {| le_created_at := utc_datetime created;
     le_request_timestamp := request_time a;
     le_response_timestamp := response_time a;
     le_bot_id := bot_id a;
     le_type_of_bot := bot_name a;
     le_user_id := user_id a;
     le_channel_id := channel_id a;
     le_thread_id := thread_id a;
     le_user_message := user_message a;
     le_input_attachments := dict_or_empty (input_attachments a);
     le_system_prompt := system_prompt a;
     le_chat_history_length := int_or_zero (chat_history_length a);
     le_response_text := response_text a;
     le_duration := duration;
     le_output_attachments := dict_or_empty (output_attachments a) |}.

(** The dict is built before the [try]: its entries are evaluated in
    order, the clock first, the subtraction of the two datetimes later. *)
Definition build_log_entry (a : LogArgs) : M LogEntry :=
  created <- datetime_now ;;
  duration <- lift (datetime_sub (response_time a) (request_time a)) ;;
  ret (log_entry_dict a created duration).

(** [self.access_token = None  # Force new token]. *)
Definition invalidate_token : M unit :=
  modify_self (with_access_token PyNone) ;; emit EvInvalidate.

(** Lines 182-197: the [try] of [log_success] and its handlers. *)
Definition deliver (log_entry : LogEntry) : M unit :=
  try_except
    (_insert_log log_entry)
    (λ _,
       logger INFO "Log insert failed, attempting to get new token" [] ;;
       try_except
         (invalidate_token ;; _insert_log log_entry)
         (λ e,
            logger ERROR "Failed to log to Supabase after token refresh: " [ArgExn e] ;;
            logger DEBUG "Failed log entry: %s" [ArgEntry log_entry])).

(** Lines 132-197. *)
Definition log_success (a : LogArgs) : M unit :=
  log_entry <- build_log_entry a ;;
  deliver log_entry.

End Methods.

(** * The vocabulary of the statements *)

(** ** Counting *)

(** The four counts the statements below speak of: calls to the password
    grant, to the refresh grant and to the log table, and invalidations. *)
Definition tally (evs : list event) : nat * nat * nat * nat :=
  (posts PasswordGrant evs, posts RefreshGrant evs, posts BotLogs evs,
   invalidations evs).

Definition tally_add (a b : nat * nat * nat * nat) : nat * nat * nat * nat :=
  match a, b with
  | (a1, a2, a3, a4), (b1, b2, b3, b4) =>
      ((a1 + b1)%nat, (a2 + b2)%nat, (a3 + b3)%nat, (a4 + b4)%nat)
  end.

(** ** Clock and answers *)

(** The machine after a clock reading, and the reading a machine is about
    to get, in whole seconds. *)
Definition after_clock (m : machine) : machine :=
  {| self := self m; trace := EvNow :: trace m |}.

Definition current_time (w : world) (m : machine) : Z :=
  int_timestamp (utcnow w (clock_reads (trace m))).

(** What [raise_for_status] tests. *)
Definition status_raises (response : Response) : bool :=
  (400 <=? status_code response) && (status_code response <? 600).

(** The seconds a decoded grant is valid for: [data.get("expires_in", 3600)]
    when it can be added to an int. *)
Definition expires_in_seconds (d : gmap string pyval) : option Z :=
  match d !! "expires_in" with
  | None => Some 3600
  | Some (PyInt z) => Some z
  | Some (PyBool b) => Some (if b then 1 else 0)
  | Some _ => None
  end.

(** The access token a grant answer offers: the value under
    ["access_token"] of a body that [raise_for_status] and
    [response.json()] let through. *)
Definition offered_access_token (o : post_outcome) : option pyval :=
  match o with
  | PostRaises => None
  | PostReturns response =>
      if status_raises response then None
      else match json response with
           | Some (PyDict d) => d !! "access_token"
           | _ => None
           end
  end.

(** A well-formed grant answer: when it offers an access token, the token
    is not null, a refresh token comes with it and the lifetime can be
    added to the clock. *)
Definition well_formed_grant (o : post_outcome) : Prop :=
  match o with
  | PostRaises => True
  | PostReturns response =>
      match json response with
      | Some (PyDict d) =>
          match d !! "access_token" with
          | Some at_ =>
              at_ ≠ PyNone ∧ is_Some (d !! "refresh_token")
              ∧ is_Some (expires_in_seconds d)
          | None => True
          end
      | _ => True
      end
  end.

(** A grant answer that carries everything: [at_], [rt] and a lifetime
    [ei] behind a status that does not raise. *)
Definition complete_grant (o : post_outcome) (at_ rt : pyval) (ei : Z) : Prop :=
  ∃ response d,
    o = PostReturns response
    ∧ status_raises response = false
    ∧ json response = Some (PyDict d)
    ∧ d !! "access_token" = Some at_
    ∧ d !! "refresh_token" = Some rt
    ∧ expires_in_seconds d = Some ei.

(** ** Events *)

(** The two success messages of the grant calls and the events that
    carry them. *)
Definition is_grant_success (e : event) : bool :=
  match e with
  | EvLog INFO msg [] =>
      String.eqb msg "Successfully authenticated with Supabase"
      || String.eqb msg "Successfully refreshed Supabase token"
  | _ => false
  end.

(** A record at error level. *)
Definition is_error_log (e : event) : bool :=
  match e with EvLog ERROR _ _ => true | _ => false end.

(** The events that bear on the access token: a grant reported as
    successful, and an invalidation. *)
Definition credential_event (e : event) : bool :=
  is_grant_success e || is_invalidate e.

Fixpoint last_credential_event (tr : list event) : option event :=
  match tr with
  | [] => None
  | e :: tr' => if credential_event e then Some e else last_credential_event tr'
  end.

(** No grant has succeeded yet, or none has since the last invalidation. *)
Definition never_granted_or_invalidated (tr : list event) : bool :=
  match last_credential_event tr with
  | None => true
  | Some e => is_invalidate e
  end.

(** ** Pieces of the methods *)

(** What both do with the response: lines 88-95 and 117-124. *)
Definition store_credential (w : world) (response : Response) (done : string) : M unit :=
  raise_for_status response ;;
  data <- response_json response ;;
  at_ <- py_getitem data "access_token" ;;
  modify_self (with_access_token at_) ;;
  rt <- py_getitem data "refresh_token" ;;
  modify_self (with_refresh_token rt) ;;
  now <- datetime_now w ;;
  expires_in <- py_get data "expires_in" (PyInt 3600) ;;
  expires <- py_int_add (int_timestamp now) expires_in ;;
  modify_self (with_expires_at (Some expires)) ;;
  logger INFO done [].

(** Their handler: lines 97-101 and 126-130. *)
Definition report_and_reraise (failed debug : string) (e : exn)
    (response : option Response) : M unit :=
  logger ERROR failed [ArgExn e] ;;
  match response with
  | None => raise (UnboundLocalError "response")
  | Some r => logger DEBUG debug [ArgText (text r)] ;; raise e
  end.

(** Both grant calls are one request followed by the same body and the
    same handler. *)
Definition grant_call (w : world) (mk : SupabaseLogger → request)
    (done failed debug : string) : M unit :=
  try_with_response
    (s <- get_self ;; requests_post w (mk s))
    (λ response, store_credential w response done)
    (report_and_reraise failed debug).

(** The request [_insert_log] sends once it has a token. *)
Definition insert_request (entry : LogEntry) (token : pyval) (m : machine) : request :=
  PostBotLogs (url (self m)) (api_key (self m)) token entry.

(** The machine at the start of the retry: line 188 has logged, line 190
    has reset the token. *)
Definition retry_start (m : machine) : machine :=
  {| self := with_access_token PyNone (self m);
     trace := EvInvalidate
              :: EvLog INFO "Log insert failed, attempting to get new token" []
              :: trace m |}.

(** The machine after lines 195-197: the retry raised [e]. *)
Definition abandoned (entry : LogEntry) (e : exn) (m : machine) : machine :=
  {| self := self m;
     trace := EvLog DEBUG "Failed log entry: %s" [ArgEntry entry]
              :: EvLog ERROR "Failed to log to Supabase after token refresh: " [ArgExn e]
              :: trace m |}.

(** ** The object over its life *)

(** The calls a client can make on the object. An exception that a call
    raises goes to the client, who keeps the object. *)
Inductive operation :=
| CallLogSuccess (a : LogArgs)
| CallGetValidToken
| CallRefreshToken
| CallAuthenticate
| CallInsertLog (entry : LogEntry).

Definition perform (w : world) (m : machine) (op : operation) : machine :=
  match op with
  | CallLogSuccess a => (log_success w a m).2
  | CallGetValidToken => (_get_valid_token w m).2
  | CallRefreshToken => (_refresh_token w m).2
  | CallAuthenticate => (_authenticate w m).2
  | CallInsertLog entry => (_insert_log w entry m).2
  end.

(** The machine after construction and a sequence of calls. *)
Definition after (w : world) (env : Environ) (ops : list operation) : machine :=
  foldl (perform w) (fresh env) ops.

(** [access_token] is [None] exactly when no grant has succeeded yet or
    none has since the last invalidation. *)
Definition token_invariant (m : machine) : Prop :=
  access_token (self m) = PyNone ↔ never_granted_or_invalidated (trace m) = true.

(** A method keeps a property of the machine, however it ends. *)
Definition preserves (I : machine → Prop) {A} (c : M A) : Prop :=
  ∀ m, I m → I (c m).2.

(** ** Further vocabulary: configuration, requests sent, log records *)

(** What [__init__] reads from the environment and no method assigns. *)
Definition configuration (s : SupabaseLogger)
    : option string * option string * option string * option string :=
  (url s, api_key s, auth_email s, auth_password s).

(** The requests a trace holds for an endpoint, most recent first. *)
Fixpoint requests_to (ep : endpoint) (tr : list event) : list request :=
  match tr with
  | [] => []
  | EvPost r :: tr' =>
      if endpoint_eqb (endpoint_of r) ep then r :: requests_to ep tr'
      else requests_to ep tr'
  | _ :: tr' => requests_to ep tr'
  end.

(** A datetime is aware when it has a UTC offset. *)
Definition aware (d : datetime) : bool :=
  match dt_utcoffset d with Some _ => true | None => false end.

(** The record of an accepted insert (line 219) and the closing error
    record of [log_success] (line 195). *)
Definition is_insert_success (e : event) : bool :=
  match e with
  | EvLog INFO msg _ => String.eqb msg "Successfully logged bot response to Supabase"
  | _ => false
  end.

Definition is_closing_error (e : event) : bool :=
  match e with
  | EvLog ERROR msg _ => String.eqb msg "Failed to log to Supabase after token refresh: "
  | _ => false
  end.

(** How many of each a trace holds. *)
Definition records (evs : list event) : nat * nat :=
  (count is_insert_success evs, count is_closing_error evs).

(** * Concrete shippers, calls and worlds *)

Definition env0 : Environ :=
  {| SUPABASE_URL := Some "https://db.example";
     SUPABASE_KEY := Some "anon-key";
     SUPABASE_AUTH_EMAIL := Some "bot@example.com";
     SUPABASE_AUTH_PASSWORD := Some "secret" |}.

(** 2023-11-14T22:13:20Z, in microseconds. *)
Definition t0 : Z := 1700000000000000.

Definition response_200 (body : option pyval) : Response :=
  {| status_code := 200; text := "body"; json := body |}.

Definition response_401 : Response :=
  {| status_code := 401; text := "unauthorized"; json := None |}.

(** A complete grant: [{"access_token": tok, "refresh_token": "ref",
    "expires_in": 3600}]. *)
Definition grant_body (tok : string) : pyval :=
  PyDict (<["access_token" := PyStr tok]>
          (<["refresh_token" := PyStr "ref"]>
           (<["expires_in" := PyInt 3600]> ∅))).

(** A grant that lacks its refresh token: [{"access_token": "tok"}]. *)
Definition truncated_body : pyval :=
  PyDict {[ "access_token" := PyStr "tok" ]}.

(** A shipper holding the given fields, with an empty trace. *)
Definition holding (at_ rt : pyval) (e : option Z) : machine :=
  {| self := with_expires_at e (with_refresh_token rt (with_access_token at_ (__init__ env0)));
     trace := [] |}.

(** Both timestamps aware (UTC), one second apart. *)
Definition args0 : LogArgs :=
  {| user_id := "U1"; channel_id := "C1"; thread_id := "T1";
     user_message := "hello"; response_text := "hi";
     request_time := {| dt_wall := t0 - 2000000; dt_tzinfo := timezone_utc;
                        dt_utcoffset := Some 0 |};
     response_time := {| dt_wall := t0 - 1000000; dt_tzinfo := timezone_utc;
                         dt_utcoffset := Some 0 |};
     bot_id := "B1"; bot_name := "onyx"; system_prompt := "be kind";
     input_attachments := None; chat_history_length := None;
     output_attachments := None |}.

(** The same call with a naive [request_time]. *)
Definition args_mixed : LogArgs :=
  {| user_id := "U1"; channel_id := "C1"; thread_id := "T1";
     user_message := "hello"; response_text := "hi";
     request_time := {| dt_wall := t0 - 2000000; dt_tzinfo := timezone_utc;
                        dt_utcoffset := None |};
     response_time := {| dt_wall := t0 - 1000000; dt_tzinfo := timezone_utc;
                         dt_utcoffset := Some 0 |};
     bot_id := "B1"; bot_name := "onyx"; system_prompt := "be kind";
     input_attachments := None; chat_history_length := None;
     output_attachments := None |}.

(** A zone object other than [timezone.utc], with the clocks of New York. *)
Definition new_york : nat := 1%nat.

(** The night of 2023-11-05, when those clocks go back: the request at
    00:30 (UTC-4), the response at 03:30 (UTC-5), both with the one zone
    object. Three hours on the wall, four hours apart. *)
Definition args_clock_change : LogArgs :=
  {| user_id := "U1"; channel_id := "C1"; thread_id := "T1";
     user_message := "hello"; response_text := "hi";
     request_time := {| dt_wall := 1699144200000000; dt_tzinfo := new_york;
                        dt_utcoffset := Some (-14400000000) |};
     response_time := {| dt_wall := 1699155000000000; dt_tzinfo := new_york;
                         dt_utcoffset := Some (-18000000000) |};
     bot_id := "B1"; bot_name := "onyx"; system_prompt := "be kind";
     input_attachments := None; chat_history_length := None;
     output_attachments := None |}.

(** No endpoint can be reached. *)
Definition world_down : world :=
  {| password_grant := λ _, PostRaises;
     refresh_grant := λ _, PostRaises;
     bot_logs := λ _, PostRaises;
     utcnow := λ _, t0 |}.

(** Every grant is complete and every insert is accepted. *)
Definition world_up : world :=
  {| password_grant := λ _, PostReturns (response_200 (Some (grant_body "tok")));
     refresh_grant := λ _, PostReturns (response_200 (Some (grant_body "tok2")));
     bot_logs := λ _, PostReturns (response_200 None);
     utcnow := λ _, t0 |}.

(** Complete grants; the log table rejects the first insert with 401 and
    accepts the following ones. *)
Definition world_401_then_200 : world :=
  {| password_grant := λ _, PostReturns (response_200 (Some (grant_body "tok")));
     refresh_grant := λ _, PostReturns (response_200 (Some (grant_body "tok2")));
     bot_logs := λ n, match n with
                      | O => PostReturns response_401
                      | S _ => PostReturns (response_200 None)
                      end;
     utcnow := λ _, t0 |}.

(** Every grant is complete but for its access token, the empty string. *)
Definition world_empty_token : world :=
  {| password_grant := λ _, PostReturns (response_200 (Some (grant_body "")));
     refresh_grant := λ _, PostReturns (response_200 (Some (grant_body "")));
     bot_logs := λ _, PostReturns (response_200 None);
     utcnow := λ _, t0 |}.

(** Every password grant answers 200 with [{"access_token": "tok"}]. *)
Definition world_truncated : world :=
  {| password_grant := λ _, PostReturns (response_200 (Some truncated_body));
     refresh_grant := λ _, PostRaises;
     bot_logs := λ _, PostReturns (response_200 None);
     utcnow := λ _, t0 |}.

(** A grant whose lifetime is a string: [{"access_token": "tok",
    "refresh_token": "ref", "expires_in": "3600"}]. *)
Definition bad_lifetime_body : pyval :=
  PyDict (<["access_token" := PyStr "tok"]>
          (<["refresh_token" := PyStr "ref"]>
           (<["expires_in" := PyStr "3600"]> ∅))).

(** Every password grant answers 200 with [bad_lifetime_body]. *)
Definition world_bad_lifetime : world :=
  {| password_grant := λ _, PostReturns (response_200 (Some bad_lifetime_body));
     refresh_grant := λ _, PostRaises;
     bot_logs := λ _, PostReturns (response_200 None);
     utcnow := λ _, t0 |}.

(** The record [log_success] builds from [args0] at [t0], and the machine
    its first attempt leaves when the log table answers 401. *)
Definition entry0 : LogEntry := log_entry_dict args0 t0 1000000.

Definition first_attempt_failed : machine :=
  (_insert_log world_401_then_200 entry0 (after_clock (fresh env0))).2.

(** An expired token, the refresh grant down, the first insert rejected:
    the five requests. *)
Definition world_refresh_down : world :=
  {| password_grant := λ _, PostReturns (response_200 (Some (grant_body "tok")));
     refresh_grant := λ _, PostRaises;
     bot_logs := λ n, match n with
                      | O => PostReturns response_401
                      | S _ => PostReturns (response_200 None)
                      end;
     utcnow := λ _, t0 |}.

(** * Reasoning about runs *)

(** ** Tactics *)

(** Unfolding the monad, one method body at a time. *)
Ltac unfold_monad :=
  unfold try_with_response, try_except, store_credential, report_and_reraise,
    requests_post, return_access_token, invalidate_token, bind, get_self,
    raise_for_status, response_json, py_getitem, py_get, py_int_add,
    modify_self, datetime_now, logger, emit, lift, ret, raise in *;
  cbn [self trace fst snd endpoint_of answer] in *.

(** Case analysis on the innermost scrutinee the goal is stuck on. *)
Ltac split_scrutinee :=
  match goal with
  | |- context [match ?x with _ => _ end] =>
      lazymatch x with
      | context [match _ with _ => _ end] => fail
      | _ => destruct x eqn:?
      end
  end.

Ltac run_cases :=
  repeat (cbn [self trace fst snd]; split_scrutinee); cbn [self trace fst snd].

(** The events a run added, read off the final trace. *)
Ltac added_events l t :=
  lazymatch l with
  | t => constr:(@nil event)
  | ?e :: ?l' => let p := added_events l' t in constr:(e :: p)
  end.

Ltac give_events :=
  lazymatch goal with
  | |- ∃ evs, ?l = evs ++ ?t ∧ _ =>
      let p := added_events l t in exists p; split; [reflexivity|]
  end.

(** Traces are compared up to the bracketing of [++]. *)
Ltac trace_eq :=
  repeat first [rewrite <- app_assoc | rewrite <- app_comm_cons];
  cbn [app]; reflexivity.

(** ** Counting events *)

Lemma count_app p (a b : list event) :
  count p (a ++ b) = (count p a + count p b)%nat.
Proof. induction a as [|e a IH]; simpl; [done|]. destruct (p e); lia. Qed.

Lemma tally_app a b : tally (a ++ b) = tally_add (tally a) (tally b).
Proof. unfold tally, posts, invalidations. by rewrite !count_app. Qed.

Lemma status_raises_of_code response code :
  status_code response = code →
  status_raises response = (400 <=? code) && (code <? 600).
Proof. by intros <-. Qed.

(** ** The grant calls *)

Section Grants.

Variable w : world.

Lemma _authenticate_grant :
  _authenticate w =
  grant_call w (λ s, PostPasswordGrant (url s) (api_key s) (auth_email s) (auth_password s))
    "Successfully authenticated with Supabase"
    "Supabase authentication failed: " "Auth response: ".
Proof. reflexivity. Qed.

Lemma _refresh_token_grant :
  _refresh_token w =
  grant_call w (λ s, PostRefreshGrant (url s) (api_key s) (refresh_token s))
    "Successfully refreshed Supabase token"
    "Supabase token refresh failed: " "Refresh response: ".
Proof. reflexivity. Qed.

Section GrantCall.

Variable mk : SupabaseLogger → request.
Variables done failed debug : string.

Let call := grant_call w mk done failed debug.

Let o m :=
  answer w (endpoint_of (mk (self m))) (posts (endpoint_of (mk (self m))) (trace m)).

(** One request goes out, whatever happens next. *)
Lemma grant_call_trace m :
  ∃ evs, trace (call m).2 = evs ++ EvPost (mk (self m)) :: trace m
         ∧ tally evs = (0, 0, 0, 0)%nat.
Proof.
  unfold call, grant_call. unfold_monad. run_cases.
  all: give_events; reflexivity.
Qed.

(** A grant call that returns has stored the three fields of the answer. *)
Lemma grant_call_ok m m' :
  call m = (Ok tt, m') →
  ∃ response d at_ rt ei,
    answer w (endpoint_of (mk (self m))) (posts (endpoint_of (mk (self m))) (trace m))
      = PostReturns response
    ∧ status_raises response = false
    ∧ json response = Some (PyDict d)
    ∧ d !! "access_token" = Some at_
    ∧ d !! "refresh_token" = Some rt
    ∧ expires_in_seconds d = Some ei
    ∧ self m' =
        with_expires_at
          (Some (int_timestamp (utcnow w (clock_reads (trace m))) + ei))
          (with_refresh_token rt (with_access_token at_ (self m)))
    ∧ trace m' = [EvLog INFO done []; EvNow; EvPost (mk (self m))] ++ trace m.
Proof.
  revert m'. unfold call, grant_call, expires_in_seconds, status_raises.
  unfold_monad. run_cases; intros m' Hrun; simplify_eq.
  all: eexists _, _, _, _, _; repeat split; try eassumption; try reflexivity.
  all: repeat match goal with H : _ = _ |- _ => rewrite H end; reflexivity.
Qed.

(** A grant call that raises: [expires_at] is never touched; nothing is
    touched unless the answer offered an access token, and then that token
    has been stored. No success is logged. *)
Lemma grant_call_raise m e m' :
  call m = (Raise e, m') →
  expires_at (self m') = expires_at (self m)
  ∧ match offered_access_token (o m) with
    | None => self m' = self m
    | Some at_ => access_token (self m') = at_
    end
  ∧ (well_formed_grant (o m) → self m' = self m)
  ∧ ∃ evs, trace m' = evs ++ trace m
           ∧ count is_grant_success evs = 0%nat
           ∧ count is_invalidate evs = 0%nat.
Proof.
  revert m'. unfold call, o, grant_call, offered_access_token, well_formed_grant,
    status_raises, expires_in_seconds.
  unfold_monad. run_cases; intros m' Hrun; simplify_eq.
  all: repeat match goal with H : _ = _ |- _ => rewrite H end.
  all: cbn [self trace with_access_token with_refresh_token expires_at access_token].
  all: split; [reflexivity|]; split; [try reflexivity|]; (split; [|give_events; done]).
  all: try done.
  all: intros (_ & Hr & He);
    first [ by apply is_Some_None in Hr | by apply is_Some_None in He ].
Qed.

(** The converse: a complete answer makes the call return. *)
Lemma grant_call_complete m at_ rt ei :
  complete_grant (o m) at_ rt ei →
  call m =
  (Ok tt,
   {| self := with_expires_at (Some (current_time w m + ei))
                (with_refresh_token rt (with_access_token at_ (self m)));
      trace := EvLog INFO done [] :: EvNow :: EvPost (mk (self m)) :: trace m |}).
Proof.
  intros (response & d & Ho & Hs & Hj & Ha & Hr & He).
  unfold call, o, grant_call, expires_in_seconds, status_raises, current_time in *.
  unfold_monad. rewrite Ho. cbn [self trace]. rewrite Hs, Hj, Ha.
  cbn [self trace]. rewrite Hr. cbn [self trace].
  destruct (d !! "expires_in") as [[]|]; by simplify_eq.
Qed.

End GrantCall.

End Grants.

(** ** [_get_valid_token], branch by branch *)

Section GetValidToken.

Variable w : world.

(** Line 52: no token, authenticate. *)
Lemma _get_valid_token_absent m :
  truthy (access_token (self m)) = false →
  _get_valid_token w m = (_authenticate w ;; return_access_token) m.
Proof.
  intros Hno. unfold _get_valid_token at 1.
  unfold bind at 1, get_self at 1. by rewrite Hno.
Qed.

(** Line 73: a token that is not expired is returned as it is. *)
Lemma _get_valid_token_current m :
  truthy (access_token (self m)) = true →
  token_expired (self m) (current_time w m) = false →
  _get_valid_token w m = (Ok (access_token (self m)), after_clock m).
Proof.
  intros Hat Hexp. unfold _get_valid_token, current_time in *.
  unfold_monad. rewrite Hat. cbn [negb self trace]. by rewrite Hexp.
Qed.

(** Lines 58-66: an expired token with a refresh token. *)
Lemma _get_valid_token_refresh m :
  truthy (access_token (self m)) = true →
  token_expired (self m) (current_time w m) = true →
  truthy (refresh_token (self m)) = true →
  _get_valid_token w m =
    try_except
      (_refresh_token w ;; return_access_token)
      (λ e,
         logger WARNING "Token refresh failed, falling back to full auth: " [ArgExn e] ;;
         _authenticate w ;; return_access_token)
      (after_clock m).
Proof.
  intros Hat Hexp Hrt. unfold current_time in *. unfold _get_valid_token at 1.
  unfold bind at 1, get_self at 1. rewrite Hat. cbn [negb].
  unfold bind at 1, datetime_now. unfold bind at 1, get_self at 1. cbn [self trace].
  by rewrite Hexp, Hrt.
Qed.

(** Lines 69-71: an expired token without a refresh token. *)
Lemma _get_valid_token_reauth m :
  truthy (access_token (self m)) = true →
  token_expired (self m) (current_time w m) = true →
  truthy (refresh_token (self m)) = false →
  _get_valid_token w m = (_authenticate w ;; return_access_token) (after_clock m).
Proof.
  intros Hat Hexp Hrt. unfold current_time in *. unfold _get_valid_token at 1.
  unfold bind at 1, get_self at 1. rewrite Hat. cbn [negb].
  unfold bind at 1, datetime_now. unfold bind at 1, get_self at 1. cbn [self trace].
  by rewrite Hexp, Hrt.
Qed.

(** What [_authenticate ;; return self.access_token] does. *)
Lemma authenticate_then_return m :
  (_authenticate w ;; return_access_token) m =
  match _authenticate w m with
  | (Ok _, m') => (Ok (access_token (self m')), m')
  | (Raise e, m') => (Raise e, m')
  end.
Proof. unfold bind, return_access_token, get_self, ret. by destruct (_authenticate w m) as [[[]|] ?]. Qed.

Lemma refresh_then_return m :
  (_refresh_token w ;; return_access_token) m =
  match _refresh_token w m with
  | (Ok _, m') => (Ok (access_token (self m')), m')
  | (Raise e, m') => (Raise e, m')
  end.
Proof. unfold bind, return_access_token, get_self, ret. by destruct (_refresh_token w m) as [[[]|] ?]. Qed.

Lemma _authenticate_trace m :
  ∃ evs, trace (_authenticate w m).2 = evs ++ trace m ∧ tally evs = (1, 0, 0, 0)%nat.
Proof.
  rewrite _authenticate_grant.
  match goal with
  | |- context [grant_call w ?mk ?d ?f ?g m] =>
      destruct (grant_call_trace w mk d f g m) as (evs & -> & Ht)
  end.
  exists (evs ++ [EvPost (PostPasswordGrant (url (self m)) (api_key (self m))
                    (auth_email (self m)) (auth_password (self m)))]).
  split; [by rewrite <- app_assoc|]. rewrite tally_app, Ht. reflexivity.
Qed.

Lemma _refresh_token_trace m :
  ∃ evs, trace (_refresh_token w m).2 = evs ++ trace m ∧ tally evs = (0, 1, 0, 0)%nat.
Proof.
  rewrite _refresh_token_grant.
  match goal with
  | |- context [grant_call w ?mk ?d ?f ?g m] =>
      destruct (grant_call_trace w mk d f g m) as (evs & -> & Ht)
  end.
  exists (evs ++ [EvPost (PostRefreshGrant (url (self m)) (api_key (self m))
                    (refresh_token (self m)))]).
  split; [by rewrite <- app_assoc|]. rewrite tally_app, Ht. reflexivity.
Qed.

(** [self.expires_at and current_time >= self.expires_at], spelled out. *)
Lemma token_expired_true s now e :
  expires_at s = Some e → e ≠ 0 → e ≤ now → token_expired s now = true.
Proof.
  intros He Hnz Hle. unfold token_expired. rewrite He. cbn [truthy_int].
  apply andb_true_iff. split; [by apply negb_true_iff, Z.eqb_neq|].
  rewrite Z.geb_leb. apply Z.leb_le. lia.
Qed.

(** Lines 59-66 from the state after the clock reading: one refresh, and
    one authentication after it exactly when the refresh raised. *)
Lemma refresh_or_authenticate_trace m :
  ∃ evs,
    trace (try_except
             (_refresh_token w ;; return_access_token)
             (λ e,
                logger WARNING "Token refresh failed, falling back to full auth: "
                  [ArgExn e] ;;
                _authenticate w ;; return_access_token)
             (after_clock m)).2 = evs ++ trace m
    ∧ posts RefreshGrant evs = 1%nat
    ∧ match (_refresh_token w (after_clock m)).1 with
      | Ok _ =>
          posts PasswordGrant evs = 0%nat
          ∧ ∃ evs_r, evs = evs_r ++ [EvNow] ∧ tally evs_r = (0, 1, 0, 0)%nat
      | Raise x =>
          posts PasswordGrant evs = 1%nat
          ∧ ∃ evs_a evs_r,
              evs = evs_a
                    ++ EvLog WARNING "Token refresh failed, falling back to full auth: "
                         [ArgExn x]
                    :: evs_r ++ [EvNow]
              ∧ tally evs_r = (0, 1, 0, 0)%nat
              ∧ tally evs_a = (1, 0, 0, 0)%nat
      end.
Proof.
  unfold try_except. rewrite refresh_then_return.
  destruct (_refresh_token_trace (after_clock m)) as (evs_r & Htr & Htr').
  destruct (_refresh_token w (after_clock m)) as [[[]|x] m1] eqn:Hrun; cbn [fst snd] in *.
  - exists (evs_r ++ [EvNow]). rewrite Htr, <- app_assoc.
    assert (Hall : tally (evs_r ++ [EvNow]) = (0, 1, 0, 0)%nat)
      by (by rewrite tally_app, Htr').
    injection Hall as Hp' Hr' _ _. repeat split; [done..|]. by exists evs_r.
  - unfold bind at 1, logger, emit. rewrite authenticate_then_return.
    set (m2 := {| self := self m1; trace := _ :: trace m1 |}).
    destruct (_authenticate_trace m2) as (evs_a & Hta & Hta').
    exists (evs_a ++ EvLog WARNING "Token refresh failed, falling back to full auth: "
                       [ArgExn x] :: evs_r ++ [EvNow]).
    assert (Hfinal : trace (_authenticate w m2).2
                     = (evs_a ++ EvLog WARNING "Token refresh failed, falling back to full auth: "
                          [ArgExn x] :: evs_r ++ [EvNow]) ++ trace m).
    { rewrite Hta. subst m2. cbn [trace]. rewrite Htr. cbn [after_clock trace].
      trace_eq. }
    assert (Hall : tally (evs_a ++ EvLog WARNING "Token refresh failed, falling back to full auth: "
                       [ArgExn x] :: evs_r ++ [EvNow]) = (1, 1, 0, 0)%nat).
    { rewrite tally_app, Hta'. change (EvLog ?l ?s ?a :: ?t) with ([EvLog l s a] ++ t).
      rewrite !tally_app, Htr'. reflexivity. }
    injection Hall as Hp' Hr' _ _.
    destruct (_authenticate w m2) as [[[]|y] m3]; cbn [fst snd] in *.
    all: repeat split; [done..|]; by exists evs_a, evs_r.
Qed.

End GetValidToken.

(** ** [_insert_log] and [log_success] *)

Section Shipping.

Variable w : world.

(** Whatever branch it takes, [_get_valid_token] sends nothing to the log
    table, invalidates nothing, and calls each grant at most once. *)
Lemma _get_valid_token_trace m :
  ∃ evs, trace (_get_valid_token w m).2 = evs ++ trace m
         ∧ (posts PasswordGrant evs ≤ 1)%nat
         ∧ (posts RefreshGrant evs ≤ 1)%nat
         ∧ posts BotLogs evs = 0%nat
         ∧ invalidations evs = 0%nat.
Proof.
  destruct (truthy (access_token (self m))) eqn:Hat.
  2:{ rewrite _get_valid_token_absent, authenticate_then_return by done.
      destruct (_authenticate_trace w m) as (evs & Htr & Ht).
      exists evs. injection Ht as -> -> -> ->.
      destruct (_authenticate w m) as [[[]|] ?]; repeat split; first [done | lia]. }
  destruct (token_expired (self m) (current_time w m)) eqn:Hexp.
  2:{ rewrite _get_valid_token_current by done. exists [EvNow]. repeat split; first [done | cbn; lia]. }
  destruct (truthy (refresh_token (self m))) eqn:Hrt.
  2:{ rewrite _get_valid_token_reauth, authenticate_then_return by done.
      destruct (_authenticate_trace w (after_clock m)) as (evs & Htr & Ht).
      exists (evs ++ [EvNow]).
      assert (Hall : tally (evs ++ [EvNow]) = (1, 0, 0, 0)%nat)
        by (by rewrite tally_app, Ht).
      injection Hall as -> -> -> ->.
      destruct (_authenticate w (after_clock m)) as [[[]|] ?]; cbn [fst snd] in *.
      all: rewrite Htr; split; [trace_eq|]; repeat split; first [done | lia]. }
  rewrite _get_valid_token_refresh by done.
  destruct (refresh_or_authenticate_trace w m) as (evs & Htr & Hr & Hcase).
  exists evs. split; [done|].
  destruct (_refresh_token w (after_clock m)).1.
  - destruct Hcase as (Hp & evs_r & -> & Ht).
    assert (Hall : tally (evs_r ++ [EvNow]) = (0, 1, 0, 0)%nat)
      by (by rewrite tally_app, Ht).
    injection Hall as -> -> -> ->. repeat split; first [done | lia].
  - destruct Hcase as (Hp & evs_a & evs_r & -> & Htr' & Hta).
    match goal with
    | |- context [?a ++ ?x :: ?b ++ ?c] =>
        assert (Hall : tally (a ++ x :: b ++ c) = (1, 1, 0, 0)%nat)
    end.
    { rewrite tally_app, Hta.
      change (EvLog ?l ?s ?a :: ?t) with ([EvLog l s a] ++ t).
      by rewrite !tally_app, Htr'. }
    injection Hall as -> -> -> ->. repeat split; first [done | lia].
Qed.

(** A password grant that is complete, on a machine without a token. *)
Lemma _get_valid_token_granted m at_ rt ei :
  truthy (access_token (self m)) = false →
  complete_grant (password_grant w (posts PasswordGrant (trace m))) at_ rt ei →
  _get_valid_token w m =
  (Ok at_,
   {| self := with_expires_at (Some (current_time w m + ei))
                (with_refresh_token rt (with_access_token at_ (self m)));
      trace := EvLog INFO "Successfully authenticated with Supabase" []
               :: EvNow
               :: EvPost (PostPasswordGrant (url (self m)) (api_key (self m))
                            (auth_email (self m)) (auth_password (self m)))
               :: trace m |}).
Proof.
  intros Hno Hgrant.
  rewrite _get_valid_token_absent, authenticate_then_return, _authenticate_grant by done.
  by erewrite grant_call_complete by exact Hgrant.
Qed.

(** [_insert_log] after [_get_valid_token]: lines 208-219. *)
Lemma _insert_log_run entry m :
  _insert_log w entry m =
  match _get_valid_token w m with
  | (Raise e, m1) => (Raise e, m1)
  | (Ok token, m1) =>
      let sent := {| self := self m1;
                     trace := EvPost (insert_request entry token m1) :: trace m1 |} in
      match bot_logs w (posts BotLogs (trace m1)) with
      | PostRaises => (Raise RequestException, sent)
      | PostReturns response =>
          if status_raises response
          then (Raise (HTTPError (status_code response)), sent)
          else (Ok tt,
                {| self := self m1;
                   trace := EvLog INFO "Successfully logged bot response to Supabase" []
                            :: trace sent |})
      end
  end.
Proof.
  unfold _insert_log, status_raises, insert_request. unfold_monad.
  destruct (_get_valid_token w m) as [[token|e] m1]; [|done].
  cbn [self trace]. destruct (bot_logs w _) as [|response]; [done|].
  by destruct (_ && _).
Qed.

(** One attempt: at most one request to the log table, exactly one when
    the attempt returns, and the token is not invalidated. *)
Lemma _insert_log_trace entry m :
  ∃ evs, trace (_insert_log w entry m).2 = evs ++ trace m
         ∧ (posts PasswordGrant evs ≤ 1)%nat
         ∧ (posts RefreshGrant evs ≤ 1)%nat
         ∧ (posts BotLogs evs ≤ 1)%nat
         ∧ invalidations evs = 0%nat
         ∧ ((_insert_log w entry m).1 = Ok tt → posts BotLogs evs = 1%nat).
Proof.
  rewrite _insert_log_run.
  destruct (_get_valid_token_trace m) as (evs & Htr & Hp & Hr & Hb & Hi).
  destruct (_get_valid_token w m) as [[token|e] m1]; cbn [fst snd] in *.
  2:{ exists evs. repeat split; first [done | lia]. }
  assert (Hone : ∀ x, x = EvPost (insert_request entry token m1) →
            (posts PasswordGrant (x :: evs) ≤ 1)%nat
            ∧ (posts RefreshGrant (x :: evs) ≤ 1)%nat
            ∧ posts BotLogs (x :: evs) = 1%nat
            ∧ invalidations (x :: evs) = 0%nat).
  { intros x ->. unfold posts, invalidations in *. cbn. rewrite Hb, Hi. done. }
  destruct (Hone _ eq_refl) as (Hp1 & Hr1 & Hb1 & Hi1).
  destruct (bot_logs w _) as [|response]; cbn [fst snd trace].
  - exists (EvPost (insert_request entry token m1) :: evs). rewrite Htr.
    repeat split; first [done | lia].
  - destruct (status_raises response); cbn [fst snd trace].
    + exists (EvPost (insert_request entry token m1) :: evs). rewrite Htr.
      repeat split; first [done | lia].
    + exists (EvLog INFO "Successfully logged bot response to Supabase" []
              :: EvPost (insert_request entry token m1) :: evs). rewrite Htr.
      repeat split; first [done | unfold posts, invalidations in *; cbn; lia].
Qed.

End Shipping.

Section Delivery.

Variable w : world.

Lemma deliver_run entry m :
  deliver w entry m =
  match _insert_log w entry m with
  | (Ok _, m1) => (Ok tt, m1)
  | (Raise _, m1) =>
      match _insert_log w entry (retry_start m1) with
      | (Ok _, m3) => (Ok tt, m3)
      | (Raise e, m3) => (Ok tt, abandoned entry e m3)
      end
  end.
Proof.
  unfold deliver, retry_start, abandoned. unfold_monad.
  destruct (_insert_log w entry m) as [[[]|e] m1]; [done|].
  cbn [self trace].
  by destruct (_insert_log w entry _) as [[[]|e'] m3].
Qed.

Lemma build_log_entry_run a m :
  build_log_entry w a m =
  match datetime_sub (response_time a) (request_time a) with
  | Ok duration =>
      (Ok (log_entry_dict a (utcnow w (clock_reads (trace m))) duration), after_clock m)
  | Raise e => (Raise e, after_clock m)
  end.
Proof. unfold build_log_entry. unfold_monad. by destruct (datetime_sub _ _). Qed.

Lemma log_success_run a m :
  log_success w a m =
  match datetime_sub (response_time a) (request_time a) with
  | Ok duration =>
      deliver w (log_entry_dict a (utcnow w (clock_reads (trace m))) duration)
        (after_clock m)
  | Raise e => (Raise e, after_clock m)
  end.
Proof.
  unfold log_success. unfold bind at 1. rewrite build_log_entry_run.
  by destruct (datetime_sub _ _).
Qed.

(** The [try] of lines 182-197 returns whatever the world answers. *)
Lemma deliver_returns entry m : (deliver w entry m).1 = Ok tt.
Proof.
  rewrite deliver_run.
  destruct (_insert_log w entry m) as [[[]|e] m1]; [done|].
  by destruct (_insert_log w entry _) as [[[]|e'] m3].
Qed.

(** The events of [deliver], attempt by attempt. *)
Lemma deliver_trace entry m :
  match _insert_log w entry m with
  | (Ok _, m1) =>
      ∃ evs1,
        trace (deliver w entry m).2 = evs1 ++ trace m
        ∧ posts BotLogs evs1 = 1%nat
        ∧ invalidations evs1 = 0%nat
  | (Raise _, m1) =>
      ∃ evs1 evs2 evs3,
        trace (deliver w entry m).2
        = evs3 ++ evs2
          ++ EvInvalidate
          :: EvLog INFO "Log insert failed, attempting to get new token" []
          :: evs1 ++ trace m
        ∧ trace m1 = evs1 ++ trace m
        ∧ trace (_insert_log w entry (retry_start m1)).2
          = evs2 ++ trace (retry_start m1)
        ∧ (posts BotLogs evs1 ≤ 1)%nat ∧ invalidations evs1 = 0%nat
        ∧ (posts BotLogs evs2 ≤ 1)%nat ∧ invalidations evs2 = 0%nat
        ∧ posts BotLogs evs3 = 0%nat ∧ invalidations evs3 = 0%nat
  end.
Proof.
  rewrite deliver_run.
  destruct (_insert_log_trace w entry m) as (evs1 & Htr1 & _ & _ & Hb1 & Hi1 & Hok1).
  destruct (_insert_log w entry m) as [[[]|e] m1]; cbn [fst snd] in *.
  { exists evs1. split; [done|]. split; [by apply Hok1|done]. }
  destruct (_insert_log_trace w entry (retry_start m1))
    as (evs2 & Htr2 & _ & _ & Hb2 & Hi2 & _).
  destruct (_insert_log w entry (retry_start m1)) as [[[]|e'] m3]; cbn [fst snd] in *.
  - exists evs1, evs2, []. rewrite Htr2. cbn [retry_start trace app]. rewrite Htr1.
    repeat split; done.
  - exists evs1, evs2,
      [EvLog DEBUG "Failed log entry: %s" [ArgEntry entry];
       EvLog ERROR "Failed to log to Supabase after token refresh: " [ArgExn e']].
    cbn [abandoned trace]. rewrite Htr2. cbn [retry_start trace app]. rewrite Htr1.
    repeat split; done.
Qed.

End Delivery.

(** ** Invariants of the methods *)

Section Preservation.

Variable w : world.
Variable I : machine → Prop.

Hypothesis I_emit : ∀ e m,
  credential_event e = false → I m → I {| self := self m; trace := e :: trace m |}.
Hypothesis I_authenticate : preserves I (_authenticate w).
Hypothesis I_refresh_token : preserves I (_refresh_token w).
Hypothesis I_invalidate_token : preserves I invalidate_token.

Lemma preserves_ret {A} (a : A) : preserves I (ret a).
Proof. by intros m. Qed.

Lemma preserves_lift {A} (r : result A) : preserves I (lift r).
Proof. by intros m. Qed.

Lemma preserves_bind {A B} (c : M A) (k : A → M B) :
  preserves I c → (∀ a, preserves I (k a)) → preserves I (bind c k).
Proof.
  intros Hc Hk m Hm. unfold bind. specialize (Hc m Hm).
  destruct (c m) as [[a|e] m']; [by apply Hk|done].
Qed.

Lemma preserves_try_except {A} (body : M A) (handler : exn → M A) :
  preserves I body → (∀ e, preserves I (handler e)) → preserves I (try_except body handler).
Proof.
  intros Hb Hh m Hm. unfold try_except. specialize (Hb m Hm).
  destruct (body m) as [[a|e] m']; [done|by apply Hh].
Qed.

Lemma preserves_get_self : preserves I get_self.
Proof. by intros m. Qed.

Lemma preserves_emit e : credential_event e = false → preserves I (emit e).
Proof. intros He m Hm. by apply I_emit. Qed.

Lemma preserves_requests_post r : preserves I (requests_post w r).
Proof.
  intros m Hm. unfold requests_post.
  destruct (answer w _ _); by apply I_emit.
Qed.

Lemma preserves_datetime_now : preserves I (datetime_now w).
Proof. intros m Hm. by apply I_emit. Qed.

Lemma preserves_raise_for_status response : preserves I (raise_for_status response).
Proof. intros m Hm. unfold raise_for_status. by destruct (_ && _). Qed.

Lemma preserves_return_access_token : preserves I return_access_token.
Proof. by intros m. Qed.

Lemma preserves_get_valid_token : preserves I (_get_valid_token w).
Proof.
  unfold _get_valid_token.
  apply preserves_bind; [apply preserves_get_self|]. intros s.
  destruct (negb _).
  { apply preserves_bind; [done|]. intros _. apply preserves_return_access_token. }
  apply preserves_bind; [apply preserves_datetime_now|]. intros now.
  apply preserves_bind; [apply preserves_get_self|]. intros s'. cbv zeta.
  destruct (_ && _).
  { apply preserves_try_except.
    - apply preserves_bind; [done|]. intros _. apply preserves_return_access_token.
    - intros e. apply preserves_bind; [by apply preserves_emit|]. intros _.
      apply preserves_bind; [done|]. intros _. apply preserves_return_access_token. }
  destruct (token_expired _ _).
  - apply preserves_bind; [done|]. intros _. apply preserves_return_access_token.
  - apply preserves_return_access_token.
Qed.

Lemma preserves_insert_log entry : preserves I (_insert_log w entry).
Proof.
  unfold _insert_log.
  apply preserves_bind; [apply preserves_get_valid_token|]. intros token.
  apply preserves_bind; [apply preserves_get_self|]. intros s.
  apply preserves_bind; [apply preserves_requests_post|]. intros response.
  apply preserves_bind; [apply preserves_raise_for_status|]. intros _.
  by apply preserves_emit.
Qed.

Lemma preserves_deliver entry : preserves I (deliver w entry).
Proof.
  unfold deliver.
  apply preserves_try_except; [apply preserves_insert_log|]. intros _.
  apply preserves_bind; [by apply preserves_emit|]. intros _.
  apply preserves_try_except.
  - apply preserves_bind; [done|]. intros _. apply preserves_insert_log.
  - intros e. apply preserves_bind; [by apply preserves_emit|]. intros _.
    by apply preserves_emit.
Qed.

Lemma preserves_log_success a : preserves I (log_success w a).
Proof.
  unfold log_success, build_log_entry.
  apply preserves_bind; [|intros entry; apply preserves_deliver].
  apply preserves_bind; [apply preserves_datetime_now|]. intros created.
  apply preserves_bind; [apply preserves_lift|]. intros duration.
  apply preserves_ret.
Qed.

Lemma preserves_perform op m : I m → I (perform w m op).
Proof.
  destruct op; cbn [perform].
  - apply preserves_log_success.
  - apply preserves_get_valid_token.
  - apply I_refresh_token.
  - apply I_authenticate.
  - apply preserves_insert_log.
Qed.

End Preservation.

(** ** When the access token is [None] *)

Lemma last_credential_event_app evs tr :
  count is_grant_success evs = 0%nat →
  count is_invalidate evs = 0%nat →
  last_credential_event (evs ++ tr) = last_credential_event tr.
Proof.
  induction evs as [|e evs IH]; [done|]. cbn. unfold credential_event.
  destruct (is_grant_success e); [done|]. destruct (is_invalidate e); [done|].
  cbn. exact IH.
Qed.

Section TokenInvariant.

Variable w : world.

Hypothesis password_grant_well_formed : ∀ n, well_formed_grant (password_grant w n).
Hypothesis refresh_grant_well_formed : ∀ n, well_formed_grant (refresh_grant w n).

Lemma token_invariant_emit e m :
  credential_event e = false →
  token_invariant m →
  token_invariant {| self := self m; trace := e :: trace m |}.
Proof.
  unfold token_invariant, never_granted_or_invalidated. cbn [self trace last_credential_event].
  by intros ->.
Qed.

Lemma token_invariant_invalidate : preserves token_invariant invalidate_token.
Proof. intros m _. by unfold token_invariant. Qed.

Lemma token_invariant_grant_call mk done failed debug :
  is_grant_success (EvLog INFO done []) = true →
  (∀ m, well_formed_grant
          (answer w (endpoint_of (mk (self m))) (posts (endpoint_of (mk (self m))) (trace m)))) →
  preserves token_invariant (grant_call w mk done failed debug).
Proof.
  intros Hdone Hwf m Hm.
  destruct (grant_call w mk done failed debug m) as [[[]|e] m'] eqn:Hrun; cbn [snd].
  - apply grant_call_ok in Hrun
      as (response & d & at_ & rt & ei & Ho & _ & Hj & Ha & _ & _ & Hs & Ht).
    specialize (Hwf m). rewrite Ho in Hwf. cbn in Hwf. rewrite Hj, Ha in Hwf.
    destruct Hwf as (Hnn & _).
    unfold token_invariant, never_granted_or_invalidated.
    rewrite Hs, Ht.
    cbn [self trace access_token with_expires_at with_refresh_token with_access_token
         app last_credential_event].
    unfold credential_event. rewrite Hdone. cbn [orb is_invalidate].
    split; [done|]. intros [=].
  - apply grant_call_raise in Hrun as (_ & _ & Hsame & evs & Ht & Hg & Hi).
    unfold token_invariant, never_granted_or_invalidated in *.
    by rewrite (Hsame (Hwf m)), Ht, last_credential_event_app.
Qed.

Lemma token_invariant_authenticate : preserves token_invariant (_authenticate w).
Proof.
  rewrite _authenticate_grant. apply token_invariant_grant_call; [done|].
  intros m. apply password_grant_well_formed.
Qed.

Lemma token_invariant_refresh_token : preserves token_invariant (_refresh_token w).
Proof.
  rewrite _refresh_token_grant. apply token_invariant_grant_call; [done|].
  intros m. apply refresh_grant_well_formed.
Qed.

End TokenInvariant.

(** ** The concrete answers *)

Lemma complete_grant_body n :
  complete_grant (password_grant world_401_then_200 n) (PyStr "tok") (PyStr "ref") 3600.
Proof.
  exists (response_200 (Some (grant_body "tok"))),
    (<["access_token" := PyStr "tok"]>
       (<["refresh_token" := PyStr "ref"]> (<["expires_in" := PyInt 3600]> ∅))).
  repeat split; reflexivity.
Qed.

Lemma well_formed_grant_body tok :
  well_formed_grant (PostReturns (response_200 (Some (grant_body tok)))).
Proof.
  cbn. unfold expires_in_seconds.
  replace (_ !! "access_token") with (Some (PyStr tok)) by reflexivity.
  replace (_ !! "refresh_token") with (Some (PyStr "ref")) by reflexivity.
  replace (_ !! "expires_in") with (Some (PyInt 3600)) by reflexivity.
  repeat split; [discriminate | by eexists | by eexists].
Defined.

(** * The claims *)

(** ** C1: [log_success] and its caller *)

(** C1, at the failing input. A naive [request_time] with an aware
    [response_time]: the subtraction of line 178 raises before the [try]
    is entered, and [log_success] lets the [TypeError] through. *)
Lemma log_success_mixed_datetimes_raises :
  log_success world_up args_mixed (fresh env0)
  = (Raise TypeError, {| self := __init__ env0; trace := [EvNow] |}).
Proof. reflexivity. Qed.

(** From the [try] on, nothing reaches the caller: once the record is
    built, [log_success] returns, whatever the world answers. *)
Lemma log_success_returns (w : world) (a : LogArgs) (m : machine) (duration : Z) :
  datetime_sub (response_time a) (request_time a) = Ok duration →
  (log_success w a m).1 = Ok tt.
Proof. intros Hd. rewrite log_success_run, Hd. apply deliver_returns. Qed.

(** With no endpoint reachable both attempts fail, and the call returns. *)
Lemma log_success_returns_witness :
  datetime_sub (response_time args0) (request_time args0) = Ok 1000000
  ∧ (log_success world_down args0 (fresh env0)).1 = Ok tt
  ∧ count is_error_log (trace (log_success world_down args0 (fresh env0)).2) = 3%nat.
Proof.
  split; [reflexivity|].
  split; [exact (log_success_returns world_down args0 (fresh env0) 1000000 eq_refl)|].
  reflexivity.
Defined.

(** ** C2: the credential after a failed grant *)



(** A status outside 400-599 does not make the call fail: a 304 with a
    complete body is stored like a 200. *)
Example authenticate_accepts_status_304 :
  _authenticate
    {| password_grant := λ _, PostReturns {| status_code := 304; text := "";
                                             json := Some (grant_body "tok") |};
       refresh_grant := λ _, PostRaises;
       bot_logs := λ _, PostRaises;
       utcnow := λ _, t0 |}
    (fresh env0)
  = (Ok tt,
     {| self := with_expires_at (Some 1700003600)
                  (with_refresh_token (PyStr "ref")
                     (with_access_token (PyStr "tok") (__init__ env0)));
        trace := [EvLog INFO "Successfully authenticated with Supabase" [];
                  EvNow;
                  EvPost (PostPasswordGrant (Some "https://db.example") (Some "anon-key")
                            (Some "bot@example.com") (Some "secret"))] |}).
Proof. by vm_compute. Qed.


(** ** C3: when the access token is [None] *)

(** C3, as amended. Let every grant answer that offers an access token
    offer one that is not null, together with a refresh token and a
    lifetime that is absent or an integer. Then in every state reached from
    a fresh object by calls of its methods, [access_token] is [None] exactly
    when no grant has succeeded yet or none has since the last invalidation
    by [log_success]. *)
Theorem access_token_none_iff_never_granted_or_invalidated
    (w : world) (env : Environ) (ops : list operation) :
  (∀ n, well_formed_grant (password_grant w n)) →
  (∀ n, well_formed_grant (refresh_grant w n)) →
  access_token (self (after w env ops)) = PyNone
  ↔ never_granted_or_invalidated (trace (after w env ops)) = true.
Proof.
  intros Hp Hr. fold (token_invariant (after w env ops)).
  unfold after. induction ops as [|op ops IH] using rev_ind; [done|].
  rewrite foldl_app. cbn [foldl].
  apply (preserves_perform w token_invariant).
  - apply token_invariant_emit.
  - by apply token_invariant_authenticate.
  - by apply token_invariant_refresh_token.
  - apply token_invariant_invalidate.
  - exact IH.
Qed.

(** C3, counterexample. One call of [log_success] on a fresh object, the
    password grant answering [{"access_token": "tok"}] both times: no grant
    has succeeded, the last thing that happened to the token is its
    invalidation, and [access_token] is ["tok"]. *)
Lemma access_token_stored_by_failed_grant :
  never_granted_or_invalidated
    (trace (after world_truncated env0 [CallLogSuccess args0])) = true
  ∧ count is_grant_success (trace (after world_truncated env0 [CallLogSuccess args0]))
    = 0%nat
  ∧ access_token (self (after world_truncated env0 [CallLogSuccess args0]))
    = PyStr "tok".
Proof. repeat split; by vm_compute. Qed.

(** Witness of C3: complete grants, one call of [log_success]. *)
Lemma access_token_none_iff_never_granted_or_invalidated_witness :
  (∀ n, well_formed_grant (password_grant world_401_then_200 n))
  ∧ (∀ n, well_formed_grant (refresh_grant world_401_then_200 n))
  ∧ (access_token (self (after world_401_then_200 env0 [CallLogSuccess args0])) = PyNone
     ↔ never_granted_or_invalidated
         (trace (after world_401_then_200 env0 [CallLogSuccess args0])) = true).
Proof.
  split; [intros n; apply well_formed_grant_body|].
  split; [intros n; apply well_formed_grant_body|].
  apply (access_token_none_iff_never_granted_or_invalidated world_401_then_200 env0
           [CallLogSuccess args0]);
    intros n; apply well_formed_grant_body.
Defined.

(** ** C4: no token held *)

(** C4. With no access token held ([None]), [_get_valid_token] makes exactly
    one call to the password grant and none to the refresh grant. When the
    password grant answers with a complete credential the call returns: the
    three fields hold what the answer carried and the value returned is the
    new access token. It returns in no other case. *)
Theorem get_valid_token_absent_authenticates (w : world) (m : machine) :
  access_token (self m) = PyNone →
  (∃ evs,
     trace (_get_valid_token w m).2 = evs ++ trace m
     ∧ posts PasswordGrant evs = 1%nat
     ∧ posts RefreshGrant evs = 0%nat)
  ∧ (∀ at_ rt ei,
       complete_grant (password_grant w (posts PasswordGrant (trace m))) at_ rt ei →
       (_get_valid_token w m).1 = Ok at_
       ∧ credential (self (_get_valid_token w m).2)
         = (at_, rt, Some (current_time w m + ei)))
  ∧ (∀ tok, (_get_valid_token w m).1 = Ok tok →
       ∃ response d rt ei,
         password_grant w (posts PasswordGrant (trace m)) = PostReturns response
         ∧ status_raises response = false
         ∧ json response = Some (PyDict d)
         ∧ d !! "access_token" = Some tok
         ∧ d !! "refresh_token" = Some rt
         ∧ expires_in_seconds d = Some ei
         ∧ credential (self (_get_valid_token w m).2)
           = (tok, rt, Some (current_time w m + ei))).
Proof.
  intros Hnone.
  assert (Hno : truthy (access_token (self m)) = false) by (by rewrite Hnone).
  split; [|split].
  - rewrite _get_valid_token_absent, authenticate_then_return by done.
    destruct (_authenticate_trace w m) as (evs & Htr & Ht).
    injection Ht as Hp Hr _ _. exists evs.
    by destruct (_authenticate w m) as [[[]|x] m'].
  - intros at_ rt ei Hgrant.
    by rewrite (_get_valid_token_granted w m at_ rt ei Hno Hgrant).
  - rewrite _get_valid_token_absent, authenticate_then_return by done.
    destruct (_authenticate w m) as [[[]|x] m'] eqn:Hrun; cbn [fst snd];
      intros tok [= <-].
    rewrite _authenticate_grant in Hrun.
    apply grant_call_ok in Hrun
      as (response & d & at_ & rt & ei & Ho & Hst & Hj & Ha & Hr' & He & Hs & _).
    exists response, d, rt, ei. rewrite Hs. by repeat split.
Qed.

(** Witness of C4: a fresh object, all endpoints up. The call returns the
    token of the answer and holds its three fields. *)
Lemma get_valid_token_absent_authenticates_witness :
  access_token (self (fresh env0)) = PyNone
  ∧ complete_grant
      (password_grant world_up (posts PasswordGrant (trace (fresh env0))))
      (PyStr "tok") (PyStr "ref") 3600
  ∧ (_get_valid_token world_up (fresh env0)).1 = Ok (PyStr "tok")
  ∧ credential (self (_get_valid_token world_up (fresh env0)).2)
    = (PyStr "tok", PyStr "ref", Some 1700003600)
  ∧ ∃ evs,
      trace (_get_valid_token world_up (fresh env0)).2 = evs ++ trace (fresh env0)
      ∧ posts PasswordGrant evs = 1%nat
      ∧ posts RefreshGrant evs = 0%nat.
Proof.
  assert (Hg : complete_grant
                 (password_grant world_up (posts PasswordGrant (trace (fresh env0))))
                 (PyStr "tok") (PyStr "ref") 3600)
    by exact (complete_grant_body 0).
  destruct (get_valid_token_absent_authenticates world_up (fresh env0) eq_refl)
    as (Hcalls & Hgranted & _).
  destruct (Hgranted (PyStr "tok") (PyStr "ref") 3600 Hg) as [Hres Hcred].
  split; [reflexivity|]. split; [exact Hg|]. split; [exact Hres|].
  split; [exact Hcred|exact Hcalls].
Defined.

(** ** C5: a token that has not expired *)

(** C5, as amended. With a truthy (non-empty) access token whose expiry
    lies after the clock reading, [_get_valid_token] makes no HTTP call,
    leaves the object as it was and returns the stored token. *)
Theorem get_valid_token_unexpired_returns_stored (w : world) (m : machine) (e : Z) :
  truthy (access_token (self m)) = true →
  expires_at (self m) = Some e →
  current_time w m < e →
  ∃ evs,
    trace (_get_valid_token w m).2 = evs ++ trace m
    ∧ tally evs = (0, 0, 0, 0)%nat
    ∧ self (_get_valid_token w m).2 = self m
    ∧ (_get_valid_token w m).1 = Ok (access_token (self m)).
Proof.
  intros Hat He Hlt.
  rewrite _get_valid_token_current; [by exists [EvNow]|done|].
  unfold token_expired. rewrite He.
  apply andb_false_iff. right. rewrite Z.geb_leb. apply Z.leb_gt. lia.
Qed.

(** An object comes to hold the empty string as its access token when a
    grant answers with it. *)
Example empty_access_token_is_reachable :
  (_authenticate world_empty_token (fresh env0)).1 = Ok tt
  ∧ self (after world_empty_token env0 [CallAuthenticate])
    = self (holding (PyStr "") (PyStr "ref") (Some 1700003600)).
Proof. split; by vm_compute. Qed.

(** C5, counterexample. An empty string is a stored access token that is
    not [None]; its expiry lies in the future, and yet [_get_valid_token]
    calls the password grant: [not ""] holds. *)
Lemma get_valid_token_unexpired_empty_token :
  access_token (self (holding (PyStr "") (PyStr "ref") (Some 1700003600))) ≠ PyNone
  ∧ expires_at (self (holding (PyStr "") (PyStr "ref") (Some 1700003600)))
    = Some 1700003600
  ∧ current_time world_down (holding (PyStr "") (PyStr "ref") (Some 1700003600))
    < 1700003600
  ∧ posts PasswordGrant
      (trace (_get_valid_token world_down
                (holding (PyStr "") (PyStr "ref") (Some 1700003600))).2) = 1%nat
  ∧ (_get_valid_token world_down
       (holding (PyStr "") (PyStr "ref") (Some 1700003600))).1
    = Raise (UnboundLocalError "response").
Proof. repeat split; try done. Qed.

(** Witness of C5: a token valid until 2033, no endpoint reachable. *)
Lemma get_valid_token_unexpired_returns_stored_witness :
  truthy (access_token (self (holding (PyStr "tok") (PyStr "ref") (Some 2000000000)))) = true
  ∧ expires_at (self (holding (PyStr "tok") (PyStr "ref") (Some 2000000000)))
    = Some 2000000000
  ∧ current_time world_down (holding (PyStr "tok") (PyStr "ref") (Some 2000000000))
    < 2000000000
  ∧ ∃ evs,
      trace (_get_valid_token world_down
               (holding (PyStr "tok") (PyStr "ref") (Some 2000000000))).2
      = evs ++ trace (holding (PyStr "tok") (PyStr "ref") (Some 2000000000))
      ∧ tally evs = (0, 0, 0, 0)%nat
      ∧ self (_get_valid_token world_down
                (holding (PyStr "tok") (PyStr "ref") (Some 2000000000))).2
        = self (holding (PyStr "tok") (PyStr "ref") (Some 2000000000))
      ∧ (_get_valid_token world_down
           (holding (PyStr "tok") (PyStr "ref") (Some 2000000000))).1
        = Ok (access_token (self (holding (PyStr "tok") (PyStr "ref") (Some 2000000000)))).
Proof.
  split; [reflexivity|]. split; [reflexivity|]. split; [reflexivity|].
  apply (get_valid_token_unexpired_returns_stored world_down
           (holding (PyStr "tok") (PyStr "ref") (Some 2000000000)) 2000000000);
    reflexivity.
Defined.

(** ** C6: an expired token with a refresh token *)

(** C6, as amended. With a truthy access token, a non-zero expiry that the
    clock has reached and a truthy refresh token, [_get_valid_token] calls
    the refresh grant exactly once. When the refresh returns, the password
    grant is not called; when it raises, the password grant is called
    exactly once, after it, and the refresh grant is not called again. *)
Theorem get_valid_token_expired_refreshes_once (w : world) (m : machine) (e : Z) :
  truthy (access_token (self m)) = true →
  expires_at (self m) = Some e →
  e ≠ 0 →
  e ≤ current_time w m →
  truthy (refresh_token (self m)) = true →
  ∃ evs,
    trace (_get_valid_token w m).2 = evs ++ trace m
    ∧ posts RefreshGrant evs = 1%nat
    ∧ match (_refresh_token w (after_clock m)).1 with
      | Ok _ =>
          posts PasswordGrant evs = 0%nat
          ∧ ∃ evs_r, evs = evs_r ++ [EvNow] ∧ tally evs_r = (0, 1, 0, 0)%nat
      | Raise x =>
          posts PasswordGrant evs = 1%nat
          ∧ ∃ evs_a evs_r,
              evs = evs_a
                    ++ EvLog WARNING "Token refresh failed, falling back to full auth: "
                         [ArgExn x]
                    :: evs_r ++ [EvNow]
              ∧ tally evs_r = (0, 1, 0, 0)%nat
              ∧ tally evs_a = (1, 0, 0, 0)%nat
      end.
Proof.
  intros Hat He Hnz Hle Hrt.
  rewrite _get_valid_token_refresh; [apply refresh_or_authenticate_trace|done| |done].
  by apply token_expired_true with e.
Qed.

(** C6, counterexample. An empty string stored as access token, an expiry
    in the past and a refresh token: the refresh grant is not called, the
    password grant is. *)
Lemma get_valid_token_expired_empty_token :
  access_token (self (holding (PyStr "") (PyStr "ref") (Some 1600000000))) ≠ PyNone
  ∧ expires_at (self (holding (PyStr "") (PyStr "ref") (Some 1600000000)))
    = Some 1600000000
  ∧ 1600000000
    ≤ current_time world_up (holding (PyStr "") (PyStr "ref") (Some 1600000000))
  ∧ refresh_token (self (holding (PyStr "") (PyStr "ref") (Some 1600000000)))
    = PyStr "ref"
  ∧ posts RefreshGrant
      (trace (_get_valid_token world_up
                (holding (PyStr "") (PyStr "ref") (Some 1600000000))).2) = 0%nat
  ∧ posts PasswordGrant
      (trace (_get_valid_token world_up
                (holding (PyStr "") (PyStr "ref") (Some 1600000000))).2) = 1%nat.
Proof. repeat split; try done. Qed.

(** The other two tests are truth tests as well: an expiry of 0 counts as
    no expiry, and an empty refresh token as none. *)
Example get_valid_token_zero_expiry_no_refresh :
  0 ≤ current_time world_up (holding (PyStr "tok") (PyStr "ref") (Some 0))
  ∧ _get_valid_token world_up (holding (PyStr "tok") (PyStr "ref") (Some 0))
    = (Ok (PyStr "tok"), after_clock (holding (PyStr "tok") (PyStr "ref") (Some 0))).
Proof. split; by vm_compute. Qed.

Example get_valid_token_empty_refresh_token_no_refresh :
  1600000000 ≤ current_time world_up (holding (PyStr "tok") (PyStr "") (Some 1600000000))
  ∧ tally (trace (_get_valid_token world_up
                    (holding (PyStr "tok") (PyStr "") (Some 1600000000))).2)
    = (1, 0, 0, 0)%nat.
Proof. split; by vm_compute. Qed.

(** Witness of C6: the refresh succeeds. *)
Lemma get_valid_token_expired_refreshes_once_witness :
  truthy (access_token (self (holding (PyStr "old") (PyStr "ref") (Some 1600000000)))) = true
  ∧ expires_at (self (holding (PyStr "old") (PyStr "ref") (Some 1600000000)))
    = Some 1600000000
  ∧ 1600000000 ≠ 0
  ∧ 1600000000
    ≤ current_time world_up (holding (PyStr "old") (PyStr "ref") (Some 1600000000))
  ∧ truthy (refresh_token (self (holding (PyStr "old") (PyStr "ref") (Some 1600000000))))
    = true
  ∧ ∃ evs,
      trace (_get_valid_token world_up
               (holding (PyStr "old") (PyStr "ref") (Some 1600000000))).2
      = evs ++ trace (holding (PyStr "old") (PyStr "ref") (Some 1600000000))
      ∧ posts RefreshGrant evs = 1%nat
      ∧ match (_refresh_token world_up
                 (after_clock (holding (PyStr "old") (PyStr "ref") (Some 1600000000)))).1
        with
        | Ok _ =>
            posts PasswordGrant evs = 0%nat
            ∧ ∃ evs_r, evs = evs_r ++ [EvNow] ∧ tally evs_r = (0, 1, 0, 0)%nat
        | Raise x =>
            posts PasswordGrant evs = 1%nat
            ∧ ∃ evs_a evs_r,
                evs = evs_a
                      ++ EvLog WARNING "Token refresh failed, falling back to full auth: "
                           [ArgExn x]
                      :: evs_r ++ [EvNow]
                ∧ tally evs_r = (0, 1, 0, 0)%nat
                ∧ tally evs_a = (1, 0, 0, 0)%nat
        end.
Proof.
  split; [reflexivity|]. split; [reflexivity|]. split; [lia|].
  split; [by vm_compute|]. split; [reflexivity|].
  apply (get_valid_token_expired_refreshes_once world_up
           (holding (PyStr "old") (PyStr "ref") (Some 1600000000)) 1600000000);
    [reflexivity | reflexivity | lia | by vm_compute | reflexivity].
Defined.

(** ** C7: at most two inserts, one invalidation in between *)

(** C7. Every run of [log_success] sends at most two requests to the log
    table. When the first attempt raises, the run consists of the events of
    that attempt, then the record of the failure and exactly one
    invalidation, which leaves the access token [None], then the events of
    one more attempt started from there, then at most the two closing log
    records; neither attempt invalidates anything and each sends at most one
    request to the log table. *)
Theorem log_success_two_attempts_one_invalidation (w : world) (a : LogArgs) (m : machine) :
  ∃ evs,
    trace (log_success w a m).2 = evs ++ trace m
    ∧ (posts BotLogs evs ≤ 2)%nat
    ∧ (invalidations evs ≤ 1)%nat
    ∧ ∀ entry m0, build_log_entry w a m = (Ok entry, m0) →
        match _insert_log w entry m0 with
        | (Ok _, _) => invalidations evs = 0%nat
        | (Raise _, m1) =>
            invalidations evs = 1%nat
            ∧ access_token (self (retry_start m1)) = PyNone
            ∧ ∃ evs1 evs2 evs3,
                evs = evs3 ++ evs2
                      ++ EvInvalidate
                      :: EvLog INFO "Log insert failed, attempting to get new token" []
                      :: evs1
                ∧ trace m1 = evs1 ++ trace m
                ∧ trace (_insert_log w entry (retry_start m1)).2
                  = evs2 ++ trace (retry_start m1)
                ∧ (posts BotLogs evs1 ≤ 1)%nat ∧ invalidations evs1 = 0%nat
                ∧ (posts BotLogs evs2 ≤ 1)%nat ∧ invalidations evs2 = 0%nat
                ∧ posts BotLogs evs3 = 0%nat ∧ invalidations evs3 = 0%nat
        end.
Proof.
  rewrite log_success_run.
  destruct (datetime_sub (response_time a) (request_time a)) as [d|e] eqn:Hd.
  2:{ exists [EvNow]. repeat split; try (cbn; lia).
      intros entry m0. rewrite build_log_entry_run, Hd. done. }
  set (entry := log_entry_dict a _ d).
  pose proof (deliver_trace w entry (after_clock m)) as Hdel.
  destruct (_insert_log w entry (after_clock m)) as [[[]|e] m1] eqn:Hfirst.
  - destruct Hdel as (evs1 & Htr & Hb & Hi).
    exists (evs1 ++ [EvNow]). rewrite Htr. split; [trace_eq|].
    assert (Hb' : posts BotLogs (evs1 ++ [EvNow]) = 1%nat)
      by (unfold posts in *; by rewrite count_app, Hb).
    assert (Hi' : invalidations (evs1 ++ [EvNow]) = 0%nat)
      by (unfold invalidations in *; by rewrite count_app, Hi).
    rewrite Hb', Hi'. repeat split; try lia.
    intros entry' m0. rewrite build_log_entry_run, Hd. intros [= <- <-].
    fold entry. by rewrite Hfirst.
  - destruct Hdel as (evs1 & evs2 & evs3 & Htr & Htr1 & Htr2 & Hb1 & Hi1 & Hb2 & Hi2 & Hb3 & Hi3).
    exists (evs3 ++ evs2
            ++ EvInvalidate
            :: EvLog INFO "Log insert failed, attempting to get new token" []
            :: evs1 ++ [EvNow]).
    rewrite Htr. split; [cbn [after_clock trace]; trace_eq|].
    assert (Hb : posts BotLogs (evs3 ++ evs2 ++ EvInvalidate
                  :: EvLog INFO "Log insert failed, attempting to get new token" []
                  :: evs1 ++ [EvNow])
                 = (posts BotLogs evs1 + posts BotLogs evs2)%nat).
    { unfold posts in *. rewrite !count_app. cbn. rewrite !count_app, Hb3. cbn. lia. }
    assert (Hi : invalidations (evs3 ++ evs2 ++ EvInvalidate
                  :: EvLog INFO "Log insert failed, attempting to get new token" []
                  :: evs1 ++ [EvNow]) = 1%nat).
    { unfold invalidations in *. rewrite !count_app. cbn.
      rewrite !count_app, Hi1, Hi2, Hi3. cbn. lia. }
    rewrite Hb, Hi. repeat split; try lia.
    intros entry' m0. rewrite build_log_entry_run, Hd. intros [= <- <-].
    fold entry. rewrite Hfirst. split; [done|]. split; [done|].
    exists (evs1 ++ [EvNow]), evs2, evs3.
    rewrite Htr1. cbn [after_clock trace].
    assert (Hb1' : posts BotLogs (evs1 ++ [EvNow]) = posts BotLogs evs1)
      by (unfold posts; rewrite count_app; cbn; lia).
    assert (Hi1' : invalidations (evs1 ++ [EvNow]) = 0%nat)
      by (unfold invalidations in *; by rewrite count_app, Hi1).
    rewrite Hb1', Hi1'.
    repeat split; try done; trace_eq.
Qed.

(** Witness of C7: the first insert is rejected. *)
Lemma log_success_two_attempts_one_invalidation_witness :
  ∃ evs,
    trace (log_success world_401_then_200 args0 (fresh env0)).2
    = evs ++ trace (fresh env0)
    ∧ (posts BotLogs evs ≤ 2)%nat
    ∧ (invalidations evs ≤ 1)%nat.
Proof.
  destruct (log_success_two_attempts_one_invalidation world_401_then_200 args0
              (fresh env0))
    as (evs & Htr & Hb & Hi & _).
  exists evs. repeat split; assumption.
Defined.

(** ** C8: the first insert rejected, the second accepted *)

(** C8, as amended. A fresh shipper whose password grants are all
    complete, with the log table answering 401 to the first insert and 200
    to the second: [log_success] returns, having called the password grant
    twice (once before each insert, the second time because of the
    invalidation), the refresh grant never and the log table twice, with one
    invalidation in between; the second insert is the one recorded as
    successful and nothing is logged at error level. *)
Theorem fresh_shipper_401_then_200 (w : world) (env : Environ) (a : LogArgs) (duration : Z)
    (r1 r2 : Response) :
  datetime_sub (response_time a) (request_time a) = Ok duration →
  (∀ n, ∃ at_ rt ei, complete_grant (password_grant w n) at_ rt ei) →
  bot_logs w 0 = PostReturns r1 → status_code r1 = 401 →
  bot_logs w 1 = PostReturns r2 → status_code r2 = 200 →
  (log_success w a (fresh env)).1 = Ok tt
  ∧ tally (trace (log_success w a (fresh env)).2) = (2, 0, 2, 1)%nat
  ∧ count is_error_log (trace (log_success w a (fresh env)).2) = 0%nat
  ∧ ∃ tok1 tok2 entry,
      trace (log_success w a (fresh env)).2 =
        [ EvLog INFO "Successfully logged bot response to Supabase" [];
          EvPost (PostBotLogs (SUPABASE_URL env) (SUPABASE_KEY env) tok2 entry);
          EvLog INFO "Successfully authenticated with Supabase" [];
          EvNow;
          EvPost (PostPasswordGrant (SUPABASE_URL env) (SUPABASE_KEY env)
                    (SUPABASE_AUTH_EMAIL env) (SUPABASE_AUTH_PASSWORD env));
          EvInvalidate;
          EvLog INFO "Log insert failed, attempting to get new token" [];
          EvPost (PostBotLogs (SUPABASE_URL env) (SUPABASE_KEY env) tok1 entry);
          EvLog INFO "Successfully authenticated with Supabase" [];
          EvNow;
          EvPost (PostPasswordGrant (SUPABASE_URL env) (SUPABASE_KEY env)
                    (SUPABASE_AUTH_EMAIL env) (SUPABASE_AUTH_PASSWORD env));
          EvNow ].
Proof.
  intros Hd Hgrants H1 Hs1 H2 Hs2.
  destruct (Hgrants 0%nat) as (tok1 & rt1 & ei1 & Hg1).
  destruct (Hgrants 1%nat) as (tok2 & rt2 & ei2 & Hg2).
  rewrite log_success_run, Hd, deliver_run.
  set (entry := log_entry_dict a _ duration).
  rewrite _insert_log_run.
  rewrite (_get_valid_token_granted w (after_clock (fresh env)) tok1 rt1 ei1) by done.
  cbn [self trace after_clock fresh posts count is_post endpoint_of endpoint_eqb].
  rewrite H1, (status_raises_of_code r1 401 Hs1).
  cbn [Z.leb Z.ltb Z.compare Pos.compare Pos.compare_cont andb].
  rewrite _insert_log_run.
  rewrite (_get_valid_token_granted w _ tok2 rt2 ei2) by done.
  cbn [self trace after_clock fresh posts count is_post endpoint_of endpoint_eqb
       retry_start insert_request].
  rewrite H2, (status_raises_of_code r2 200 Hs2).
  cbn [Z.leb Z.ltb Z.compare Pos.compare Pos.compare_cont andb].
  cbn [fst snd trace].
  split; [done|]. split; [done|]. split; [done|].
  by exists tok1, tok2, entry.
Qed.

(** C8, counterexample. In the scenario as the claim describes it, the
    password grant is called twice, not once. *)
Lemma fresh_shipper_401_then_200_authenticates_twice :
  access_token (self (fresh env0)) = PyNone
  ∧ password_grant world_401_then_200 0
    = PostReturns (response_200 (Some (grant_body "tok")))
  ∧ password_grant world_401_then_200 1
    = PostReturns (response_200 (Some (grant_body "tok")))
  ∧ bot_logs world_401_then_200 0 = PostReturns response_401
  ∧ bot_logs world_401_then_200 1 = PostReturns (response_200 None)
  ∧ (log_success world_401_then_200 args0 (fresh env0)).1 = Ok tt
  ∧ tally (trace (log_success world_401_then_200 args0 (fresh env0)).2)
    = (2, 0, 2, 1)%nat.
Proof. repeat split; by vm_compute. Qed.

(** Witness of C8. *)
Lemma fresh_shipper_401_then_200_witness :
  datetime_sub (response_time args0) (request_time args0) = Ok 1000000
  ∧ (∀ n, ∃ at_ rt ei, complete_grant (password_grant world_401_then_200 n) at_ rt ei)
  ∧ bot_logs world_401_then_200 0 = PostReturns response_401
  ∧ status_code response_401 = 401
  ∧ bot_logs world_401_then_200 1 = PostReturns (response_200 None)
  ∧ status_code (response_200 None) = 200
  ∧ (log_success world_401_then_200 args0 (fresh env0)).1 = Ok tt
  ∧ tally (trace (log_success world_401_then_200 args0 (fresh env0)).2)
    = (2, 0, 2, 1)%nat
  ∧ count is_error_log (trace (log_success world_401_then_200 args0 (fresh env0)).2)
    = 0%nat.
Proof.
  assert (Hgrants : ∀ n, ∃ at_ rt ei,
            complete_grant (password_grant world_401_then_200 n) at_ rt ei)
    by (intros n; eexists _, _, _; apply complete_grant_body).
  split; [reflexivity|]. split; [exact Hgrants|].
  split; [reflexivity|]. split; [reflexivity|].
  split; [reflexivity|]. split; [reflexivity|].
  destruct (fresh_shipper_401_then_200 world_401_then_200 env0 args0 1000000
              response_401 (response_200 None)
              eq_refl Hgrants eq_refl eq_refl eq_refl eq_refl)
    as (Hok & Htally & Herr & _).
  repeat split; assumption.
Defined.

(** ** C9: a token without an expiry *)

(** C9, as amended. With a truthy (non-empty) access token and no expiry
    stored, [_get_valid_token] makes no HTTP call and returns the stored
    token, whatever the clock and the refresh token are. *)
Theorem get_valid_token_without_expiry_returns_stored (w : world) (m : machine) :
  truthy (access_token (self m)) = true →
  expires_at (self m) = None →
  ∃ evs,
    trace (_get_valid_token w m).2 = evs ++ trace m
    ∧ tally evs = (0, 0, 0, 0)%nat
    ∧ self (_get_valid_token w m).2 = self m
    ∧ (_get_valid_token w m).1 = Ok (access_token (self m)).
Proof.
  intros Hat He.
  rewrite _get_valid_token_current; [by exists [EvNow]|done|].
  unfold token_expired. by rewrite He.
Qed.

(** C9, counterexample. An empty string stored as access token with no
    expiry: the token is not [None], and [_get_valid_token] calls the
    password grant. *)
Lemma get_valid_token_without_expiry_empty_token :
  access_token (self (holding (PyStr "") PyNone None)) ≠ PyNone
  ∧ expires_at (self (holding (PyStr "") PyNone None)) = None
  ∧ posts PasswordGrant
      (trace (_get_valid_token world_down (holding (PyStr "") PyNone None)).2) = 1%nat
  ∧ (_get_valid_token world_down (holding (PyStr "") PyNone None)).1
    = Raise (UnboundLocalError "response").
Proof. repeat split; try done. Qed.

(** Witness of C9: a token and no expiry, no endpoint reachable. *)
Lemma get_valid_token_without_expiry_returns_stored_witness :
  truthy (access_token (self (holding (PyStr "tok") (PyStr "ref") None))) = true
  ∧ expires_at (self (holding (PyStr "tok") (PyStr "ref") None)) = None
  ∧ ∃ evs,
      trace (_get_valid_token world_down (holding (PyStr "tok") (PyStr "ref") None)).2
      = evs ++ trace (holding (PyStr "tok") (PyStr "ref") None)
      ∧ tally evs = (0, 0, 0, 0)%nat
      ∧ self (_get_valid_token world_down (holding (PyStr "tok") (PyStr "ref") None)).2
        = self (holding (PyStr "tok") (PyStr "ref") None)
      ∧ (_get_valid_token world_down (holding (PyStr "tok") (PyStr "ref") None)).1
        = Ok (access_token (self (holding (PyStr "tok") (PyStr "ref") None))).
Proof.
  split; [reflexivity|]. split; [reflexivity|].
  apply (get_valid_token_without_expiry_returns_stored world_down
           (holding (PyStr "tok") (PyStr "ref") None));
    reflexivity.
Defined.

(** ** C10: the retry authenticates *)

(** C10. When the first attempt of [log_success] raises, the invalidation
    resets [access_token] to [None] and nothing else of the object, so that
    [refresh_token] and [expires_at] keep their values; the run goes on with
    one more attempt from there, whose [_get_valid_token] is the
    authentication path: exactly one call to the password grant, none to
    the refresh grant, whatever refresh token is stored. *)
Theorem retry_takes_password_path (w : world) (a : LogArgs) (m m0 m1 : machine)
    (entry : LogEntry) (e : exn) :
  build_log_entry w a m = (Ok entry, m0) →
  _insert_log w entry m0 = (Raise e, m1) →
  self (retry_start m1) = with_access_token PyNone (self m1)
  ∧ credential (self (retry_start m1))
    = (PyNone, refresh_token (self m1), expires_at (self m1))
  ∧ log_success w a m
    = match _insert_log w entry (retry_start m1) with
      | (Ok _, m3) => (Ok tt, m3)
      | (Raise e', m3) => (Ok tt, abandoned entry e' m3)
      end
  ∧ _get_valid_token w (retry_start m1)
    = (_authenticate w ;; return_access_token) (retry_start m1)
  ∧ ∃ evs,
      trace (_get_valid_token w (retry_start m1)).2 = evs ++ trace (retry_start m1)
      ∧ posts PasswordGrant evs = 1%nat
      ∧ posts RefreshGrant evs = 0%nat.
Proof.
  intros Hbuild Hfirst.
  split; [done|]. split; [done|]. split.
  { unfold log_success, bind. rewrite Hbuild, deliver_run, Hfirst. done. }
  assert (Hpath : _get_valid_token w (retry_start m1)
                  = (_authenticate w ;; return_access_token) (retry_start m1))
    by (by apply _get_valid_token_absent).
  split; [done|]. rewrite Hpath, authenticate_then_return.
  destruct (_authenticate_trace w (retry_start m1)) as (evs & Htr & Ht).
  exists evs. injection Ht as Hp Hr _ _.
  by destruct (_authenticate w (retry_start m1)) as [[[]|] ?].
Qed.

(** Witness of C10: the first insert is rejected while a refresh token
    is stored. *)
Lemma retry_takes_password_path_witness :
  build_log_entry world_401_then_200 args0 (fresh env0)
  = (Ok entry0, after_clock (fresh env0))
  ∧ _insert_log world_401_then_200 entry0 (after_clock (fresh env0))
    = (Raise (HTTPError 401), first_attempt_failed)
  ∧ refresh_token (self first_attempt_failed) = PyStr "ref"
  ∧ credential (self (retry_start first_attempt_failed))
    = (PyNone, refresh_token (self first_attempt_failed),
       expires_at (self first_attempt_failed))
  ∧ ∃ evs,
      trace (_get_valid_token world_401_then_200 (retry_start first_attempt_failed)).2
      = evs ++ trace (retry_start first_attempt_failed)
      ∧ posts PasswordGrant evs = 1%nat
      ∧ posts RefreshGrant evs = 0%nat.
Proof.
  split; [reflexivity|]. split; [reflexivity|]. split; [reflexivity|].
  destruct (retry_takes_password_path world_401_then_200 args0 (fresh env0)
              (after_clock (fresh env0)) first_attempt_failed entry0 (HTTPError 401)
              eq_refl eq_refl)
    as (_ & Hcred & _ & _ & Hevs).
  split; assumption.
Defined.

(** * Further properties of the token life cycle *)

(** An expired token without a refresh token: lines 69-71 authenticate,
    once, and do not call the refresh grant. *)
Theorem get_valid_token_expired_without_refresh_token
    (w : world) (m : machine) (e : Z) :
  truthy (access_token (self m)) = true →
  expires_at (self m) = Some e →
  e ≠ 0 →
  e ≤ current_time w m →
  truthy (refresh_token (self m)) = false →
  ∃ evs,
    trace (_get_valid_token w m).2 = evs ++ trace m
    ∧ tally evs = (1, 0, 0, 0)%nat
    ∧ (_get_valid_token w m).1
      = match (_authenticate w (after_clock m)).1 with
        | Ok _ => Ok (access_token (self (_get_valid_token w m).2))
        | Raise x => Raise x
        end.
Proof.
  intros Hat He Hnz Hle Hrt.
  rewrite _get_valid_token_reauth; [|done|by apply token_expired_true with e|done].
  rewrite authenticate_then_return.
  destruct (_authenticate_trace w (after_clock m)) as (evs & Htr & Ht).
  exists (evs ++ [EvNow]).
  assert (Hall : tally (evs ++ [EvNow]) = (1, 0, 0, 0)%nat)
    by (by rewrite tally_app, Ht).
  destruct (_authenticate w (after_clock m)) as [[[]|x] m']; cbn [fst snd] in *.
  all: rewrite Htr; split; [trace_eq|]; by split.
Qed.

Lemma get_valid_token_expired_without_refresh_token_witness :
  truthy (access_token (self (holding (PyStr "old") PyNone (Some 1600000000)))) = true
  ∧ 1600000000 ≤ current_time world_up (holding (PyStr "old") PyNone (Some 1600000000))
  ∧ truthy (refresh_token (self (holding (PyStr "old") PyNone (Some 1600000000)))) = false
  ∧ ∃ evs,
      trace (_get_valid_token world_up (holding (PyStr "old") PyNone (Some 1600000000))).2
      = evs ++ trace (holding (PyStr "old") PyNone (Some 1600000000))
      ∧ tally evs = (1, 0, 0, 0)%nat.
Proof.
  split; [reflexivity|]. split; [by vm_compute|]. split; [reflexivity|].
  destruct (get_valid_token_expired_without_refresh_token world_up
              (holding (PyStr "old") PyNone (Some 1600000000)) 1600000000)
    as (evs & Htr & Ht & _);
    [reflexivity | reflexivity | lia | by vm_compute | reflexivity |].
  exists evs. split; assumption.
Defined.

(** A grant call that returns has replaced the three fields together, by
    what the body of its answer carried; the lifetime is 3600 seconds when
    the body names none; the configuration is as before. And the call does
    return when the answer is complete. *)
Theorem grant_success_stores_credential (w : world) (m : machine) :
  (∀ m', _authenticate w m = (Ok tt, m') →
     ∃ response d at_ rt ei,
       password_grant w (posts PasswordGrant (trace m)) = PostReturns response
       ∧ status_raises response = false
       ∧ json response = Some (PyDict d)
       ∧ d !! "access_token" = Some at_
       ∧ d !! "refresh_token" = Some rt
       ∧ expires_in_seconds d = Some ei
       ∧ (d !! "expires_in" = None → ei = 3600)
       ∧ credential (self m') = (at_, rt, Some (current_time w m + ei))
       ∧ (url (self m'), api_key (self m'), auth_email (self m'), auth_password (self m'))
         = (url (self m), api_key (self m), auth_email (self m), auth_password (self m)))
  ∧ (∀ m', _refresh_token w m = (Ok tt, m') →
     ∃ response d at_ rt ei,
       refresh_grant w (posts RefreshGrant (trace m)) = PostReturns response
       ∧ status_raises response = false
       ∧ json response = Some (PyDict d)
       ∧ d !! "access_token" = Some at_
       ∧ d !! "refresh_token" = Some rt
       ∧ expires_in_seconds d = Some ei
       ∧ (d !! "expires_in" = None → ei = 3600)
       ∧ credential (self m') = (at_, rt, Some (current_time w m + ei))
       ∧ (url (self m'), api_key (self m'), auth_email (self m'), auth_password (self m'))
         = (url (self m), api_key (self m), auth_email (self m), auth_password (self m)))
  ∧ (∀ at_ rt ei,
       complete_grant (password_grant w (posts PasswordGrant (trace m))) at_ rt ei →
       (_authenticate w m).1 = Ok tt
       ∧ credential (self (_authenticate w m).2)
         = (at_, rt, Some (current_time w m + ei)))
  ∧ (∀ at_ rt ei,
       complete_grant (refresh_grant w (posts RefreshGrant (trace m))) at_ rt ei →
       (_refresh_token w m).1 = Ok tt
       ∧ credential (self (_refresh_token w m).2)
         = (at_, rt, Some (current_time w m + ei))).
Proof.
  split; [|split; [|split]].
  - intros m' Hrun. rewrite _authenticate_grant in Hrun.
    apply grant_call_ok in Hrun
      as (response & d & at_ & rt & ei & Ho & Hst & Hj & Ha & Hr & He & Hs & _).
    exists response, d, at_, rt, ei. rewrite Hs. repeat split; try done.
    intros Hnone. unfold expires_in_seconds in He. rewrite Hnone in He. by injection He.
  - intros m' Hrun. rewrite _refresh_token_grant in Hrun.
    apply grant_call_ok in Hrun
      as (response & d & at_ & rt & ei & Ho & Hst & Hj & Ha & Hr & He & Hs & _).
    exists response, d, at_, rt, ei. rewrite Hs. repeat split; try done.
    intros Hnone. unfold expires_in_seconds in He. rewrite Hnone in He. by injection He.
  - intros at_ rt ei Hgrant. rewrite _authenticate_grant.
    by erewrite grant_call_complete by exact Hgrant.
  - intros at_ rt ei Hgrant. rewrite _refresh_token_grant.
    by erewrite grant_call_complete by exact Hgrant.
Qed.

(** All endpoints up: [_authenticate] on a fresh object returns and holds
    the three fields of [grant_body "tok"]; [_refresh_token] on an object
    with an old credential holds those of [grant_body "tok2"]. *)
Lemma grant_success_stores_credential_witness :
  complete_grant (password_grant world_up (posts PasswordGrant (trace (fresh env0))))
    (PyStr "tok") (PyStr "ref") 3600
  ∧ (_authenticate world_up (fresh env0)).1 = Ok tt
  ∧ credential (self (_authenticate world_up (fresh env0)).2)
    = (PyStr "tok", PyStr "ref", Some 1700003600)
  ∧ (_refresh_token world_up (holding (PyStr "old") (PyStr "ref") (Some 1600000000))).1
    = Ok tt
  ∧ credential
      (self (_refresh_token world_up
               (holding (PyStr "old") (PyStr "ref") (Some 1600000000))).2)
    = (PyStr "tok2", PyStr "ref", Some 1700003600)
  ∧ ∃ response d,
      password_grant world_up (posts PasswordGrant (trace (fresh env0)))
      = PostReturns response
      ∧ json response = Some (PyDict d)
      ∧ d !! "access_token"
        = Some (access_token (self (_authenticate world_up (fresh env0)).2))
      ∧ d !! "refresh_token"
        = Some (refresh_token (self (_authenticate world_up (fresh env0)).2)).
Proof.
  assert (Hg : complete_grant
                 (password_grant world_up (posts PasswordGrant (trace (fresh env0))))
                 (PyStr "tok") (PyStr "ref") 3600)
    by exact (complete_grant_body 0).
  assert (Hg2 : complete_grant
                  (refresh_grant world_up
                     (posts RefreshGrant
                        (trace (holding (PyStr "old") (PyStr "ref") (Some 1600000000)))))
                  (PyStr "tok2") (PyStr "ref") 3600).
  { exists (response_200 (Some (grant_body "tok2"))),
      (<["access_token" := PyStr "tok2"]>
         (<["refresh_token" := PyStr "ref"]> (<["expires_in" := PyInt 3600]> ∅))).
    repeat split; reflexivity. }
  destruct (grant_success_stores_credential world_up (fresh env0))
    as (Hreturned & _ & Hgranted & _).
  destruct (grant_success_stores_credential world_up
              (holding (PyStr "old") (PyStr "ref") (Some 1600000000)))
    as (_ & _ & _ & Hrefreshed).
  destruct (Hgranted _ _ _ Hg) as [Hres Hcred].
  destruct (Hrefreshed _ _ _ Hg2) as [Hres2 Hcred2].
  split; [exact Hg|]. split; [exact Hres|]. split; [exact Hcred|].
  split; [exact Hres2|]. split; [exact Hcred2|].
  destruct (Hreturned (_authenticate world_up (fresh env0)).2 eq_refl)
    as (response & d & at_ & rt & ei & Ho & _ & Hj & Ha & Hr & _ & _ & Hc & _).
  exists response, d. injection Hc as Hat Hrt _.
  split; [exact Ho|]. split; [exact Hj|]. split; [by rewrite Hat|by rewrite Hrt].
Defined.

(** * The configuration *)

Section GrantFrame.

Variable w : world.
Variable mk : SupabaseLogger → request.
Variables done failed debug : string.

(** A grant call, however it ends, leaves the configuration alone. *)
Lemma grant_call_configuration m :
  configuration (self (grant_call w mk done failed debug m).2) = configuration (self m).
Proof.
  unfold grant_call. unfold_monad. run_cases; reflexivity.
Qed.

(** Which exception a failing grant call raises, and what it has logged
    by then. *)
Lemma grant_call_exception m e m' :
  grant_call w mk done failed debug m = (Raise e, m') →
  match answer w (endpoint_of (mk (self m))) (posts (endpoint_of (mk (self m))) (trace m)) with
  | PostRaises =>
      e = UnboundLocalError "response"
      ∧ trace m' = EvLog ERROR failed [ArgExn RequestException]
                   :: EvPost (mk (self m)) :: trace m
  | PostReturns response =>
      e ≠ UnboundLocalError "response"
      ∧ ∃ evs, trace m' = EvLog DEBUG debug [ArgText (text response)]
                          :: EvLog ERROR failed [ArgExn e]
                          :: evs ++ EvPost (mk (self m)) :: trace m
  end.
Proof.
  revert m'. unfold grant_call. unfold_monad.
  run_cases; intros m' Hrun; simplify_eq; cbn [self trace].
  all: split; [done|].
  all: first [ reflexivity
             | exists (@nil event); reflexivity
             | exists [EvNow]; reflexivity ].
Qed.

(** An answer that offers no access token makes the call raise and leaves
    the object as it was. *)
Lemma grant_call_not_offered m :
  offered_access_token
    (answer w (endpoint_of (mk (self m))) (posts (endpoint_of (mk (self m))) (trace m)))
  = None →
  ∃ e, (grant_call w mk done failed debug m).1 = Raise e
       ∧ self (grant_call w mk done failed debug m).2 = self m.
Proof.
  intros Hoff.
  destruct (grant_call w mk done failed debug m) as [[[]|e] m'] eqn:Hrun; cbn [fst snd].
  - apply grant_call_ok in Hrun
      as (response & d & at_ & rt & ei & Ho & Hs & Hj & Ha & _).
    rewrite Ho in Hoff. cbn [offered_access_token] in Hoff.
    by rewrite Hs, Hj, Ha in Hoff.
  - apply grant_call_raise in Hrun as (_ & Hsame & _).
    rewrite Hoff in Hsame. by exists e.
Qed.

End GrantFrame.

(** Over the life of the object the configuration is what [__init__] read
    from the environment: no method assigns [url], [api_key], [auth_email]
    or [auth_password]. *)
Theorem configuration_never_changes (w : world) (env : Environ) (ops : list operation) :
  configuration (self (after w env ops))
  = (SUPABASE_URL env, SUPABASE_KEY env, SUPABASE_AUTH_EMAIL env,
     SUPABASE_AUTH_PASSWORD env).
Proof.
  unfold after. induction ops as [|op ops IH] using rev_ind; [done|].
  rewrite foldl_app. cbn [foldl].
  apply (preserves_perform w
           (λ m, configuration (self m)
                 = (SUPABASE_URL env, SUPABASE_KEY env, SUPABASE_AUTH_EMAIL env,
                    SUPABASE_AUTH_PASSWORD env))).
  - by intros e m _ Hm.
  - intros m Hm. rewrite _authenticate_grant. by rewrite grant_call_configuration.
  - intros m Hm. rewrite _refresh_token_grant. by rewrite grant_call_configuration.
  - by intros m Hm.
  - exact IH.
Qed.

(** The exception a failing grant call hands to its caller. When
    [requests.post] itself raised, the handler trips on the unbound local
    [response]: the caller gets [UnboundLocalError] and the error record
    names the exception of [requests.post]. When a response came back, the
    caller gets the exception the error record names, after a debug record
    with the text of the response. *)
Theorem failed_grant_call_exception (w : world) (m : machine) :
  (∀ e m', _authenticate w m = (Raise e, m') →
     match password_grant w (posts PasswordGrant (trace m)) with
     | PostRaises =>
         e = UnboundLocalError "response"
         ∧ trace m'
           = EvLog ERROR "Supabase authentication failed: " [ArgExn RequestException]
             :: EvPost (PostPasswordGrant (url (self m)) (api_key (self m))
                          (auth_email (self m)) (auth_password (self m)))
             :: trace m
     | PostReturns response =>
         e ≠ UnboundLocalError "response"
         ∧ ∃ evs,
             trace m'
             = EvLog DEBUG "Auth response: " [ArgText (text response)]
               :: EvLog ERROR "Supabase authentication failed: " [ArgExn e]
               :: evs
               ++ EvPost (PostPasswordGrant (url (self m)) (api_key (self m))
                            (auth_email (self m)) (auth_password (self m)))
               :: trace m
     end)
  ∧ (∀ e m', _refresh_token w m = (Raise e, m') →
     match refresh_grant w (posts RefreshGrant (trace m)) with
     | PostRaises =>
         e = UnboundLocalError "response"
         ∧ trace m'
           = EvLog ERROR "Supabase token refresh failed: " [ArgExn RequestException]
             :: EvPost (PostRefreshGrant (url (self m)) (api_key (self m))
                          (refresh_token (self m)))
             :: trace m
     | PostReturns response =>
         e ≠ UnboundLocalError "response"
         ∧ ∃ evs,
             trace m'
             = EvLog DEBUG "Refresh response: " [ArgText (text response)]
               :: EvLog ERROR "Supabase token refresh failed: " [ArgExn e]
               :: evs
               ++ EvPost (PostRefreshGrant (url (self m)) (api_key (self m))
                            (refresh_token (self m)))
               :: trace m
     end).
Proof.
  split; intros e m' Hrun.
  - rewrite _authenticate_grant in Hrun. by apply grant_call_exception in Hrun.
  - rewrite _refresh_token_grant in Hrun. by apply grant_call_exception in Hrun.
Qed.

(** No endpoint reachable: the caller of [_authenticate] gets
    [UnboundLocalError], not the exception of [requests.post]. *)
Lemma failed_grant_call_exception_witness :
  _authenticate world_down (fresh env0)
  = (Raise (UnboundLocalError "response"), (_authenticate world_down (fresh env0)).2)
  ∧ password_grant world_down (posts PasswordGrant (trace (fresh env0))) = PostRaises
  ∧ trace (_authenticate world_down (fresh env0)).2
    = EvLog ERROR "Supabase authentication failed: " [ArgExn RequestException]
      :: EvPost (PostPasswordGrant (url (self (fresh env0))) (api_key (self (fresh env0)))
                   (auth_email (self (fresh env0))) (auth_password (self (fresh env0))))
      :: trace (fresh env0).
Proof.
  split; [reflexivity|]. split; [reflexivity|].
  exact (proj2 (proj1 (failed_grant_call_exception world_down (fresh env0)) _ _ eq_refl)).
Defined.

(** A token just granted is served from the object: after an
    authentication answered by a complete grant with a truthy access token,
    [_get_valid_token] returns that token without any request, as long as
    its clock reading lies before the reading of the grant plus the
    lifetime granted. *)
Theorem granted_token_is_served (w : world) (m : machine) (at_ rt : pyval) (ei : Z) :
  complete_grant (password_grant w (posts PasswordGrant (trace m))) at_ rt ei →
  truthy at_ = true →
  current_time w (_authenticate w m).2 < current_time w m + ei →
  (_authenticate w m).1 = Ok tt
  ∧ credential (self (_authenticate w m).2) = (at_, rt, Some (current_time w m + ei))
  ∧ _get_valid_token w (_authenticate w m).2
    = (Ok at_, after_clock (_authenticate w m).2).
Proof.
  intros Hgrant Hat. rewrite _authenticate_grant.
  erewrite grant_call_complete by exact Hgrant. cbn [fst snd]. intros Hlt.
  split; [done|]. split; [done|].
  rewrite _get_valid_token_current; [done|done|].
  unfold token_expired. cbn [self expires_at with_expires_at].
  apply andb_false_iff. right. rewrite Z.geb_leb. apply Z.leb_gt. exact Hlt.
Qed.

Lemma granted_token_is_served_witness :
  complete_grant (password_grant world_up (posts PasswordGrant (trace (fresh env0))))
    (PyStr "tok") (PyStr "ref") 3600
  ∧ truthy (PyStr "tok") = true
  ∧ current_time world_up (_authenticate world_up (fresh env0)).2
    < current_time world_up (fresh env0) + 3600
  ∧ _get_valid_token world_up (_authenticate world_up (fresh env0)).2
    = (Ok (PyStr "tok"), after_clock (_authenticate world_up (fresh env0)).2).
Proof.
  assert (Hg : complete_grant
                 (password_grant world_up (posts PasswordGrant (trace (fresh env0))))
                 (PyStr "tok") (PyStr "ref") 3600)
    by exact (complete_grant_body 0).
  split; [exact Hg|]. split; [reflexivity|]. split; [reflexivity|].
  exact (proj2 (proj2 (granted_token_is_served world_up (fresh env0)
                         (PyStr "tok") (PyStr "ref") 3600 Hg eq_refl eq_refl))).
Defined.

(** An expired token is renewed with the stored refresh token. With a
    truthy access token, a non-zero expiry that the clock has reached, a
    truthy refresh token and a complete answer of the refresh grant,
    [_get_valid_token] sends the stored refresh token, once, stores the three
    fields of the answer and returns the new access token; the password
    grant is not called. *)
Theorem get_valid_token_refreshed (w : world) (m : machine) (e : Z)
    (at_ rt : pyval) (ei : Z) :
  truthy (access_token (self m)) = true →
  expires_at (self m) = Some e →
  e ≠ 0 →
  e ≤ current_time w m →
  truthy (refresh_token (self m)) = true →
  complete_grant (refresh_grant w (posts RefreshGrant (trace m))) at_ rt ei →
  _get_valid_token w m
  = (Ok at_,
     {| self := with_expires_at (Some (current_time w (after_clock m) + ei))
                  (with_refresh_token rt (with_access_token at_ (self m)));
        trace := EvLog INFO "Successfully refreshed Supabase token" []
                 :: EvNow
                 :: EvPost (PostRefreshGrant (url (self m)) (api_key (self m))
                              (refresh_token (self m)))
                 :: EvNow
                 :: trace m |}).
Proof.
  intros Hat He Hnz Hle Hrt Hgrant.
  rewrite _get_valid_token_refresh; [|done|by apply token_expired_true with e|done].
  unfold try_except. rewrite refresh_then_return, _refresh_token_grant.
  by erewrite grant_call_complete by exact Hgrant.
Qed.

(** The token of [holding] has expired; the refresh grant answers. *)
Lemma get_valid_token_refreshed_witness :
  truthy (access_token (self (holding (PyStr "old") (PyStr "ref") (Some 1600000000)))) = true
  ∧ 1600000000 ≤ current_time world_up (holding (PyStr "old") (PyStr "ref") (Some 1600000000))
  ∧ complete_grant
      (refresh_grant world_up
         (posts RefreshGrant (trace (holding (PyStr "old") (PyStr "ref") (Some 1600000000)))))
      (PyStr "tok2") (PyStr "ref") 3600
  ∧ (_get_valid_token world_up (holding (PyStr "old") (PyStr "ref") (Some 1600000000))).1
    = Ok (PyStr "tok2")
  ∧ tally (trace (_get_valid_token world_up
                    (holding (PyStr "old") (PyStr "ref") (Some 1600000000))).2)
    = (0, 1, 0, 0)%nat.
Proof.
  assert (Hg : complete_grant
                 (refresh_grant world_up
                    (posts RefreshGrant
                       (trace (holding (PyStr "old") (PyStr "ref") (Some 1600000000)))))
                 (PyStr "tok2") (PyStr "ref") 3600).
  { exists (response_200 (Some (grant_body "tok2"))),
      (<["access_token" := PyStr "tok2"]>
         (<["refresh_token" := PyStr "ref"]> (<["expires_in" := PyInt 3600]> ∅))).
    repeat split; reflexivity. }
  split; [reflexivity|]. split; [by vm_compute|]. split; [exact Hg|].
  rewrite (get_valid_token_refreshed world_up
             (holding (PyStr "old") (PyStr "ref") (Some 1600000000)) 1600000000
             (PyStr "tok2") (PyStr "ref") 3600);
    [ by split | reflexivity | reflexivity | lia | by vm_compute | reflexivity | exact Hg ].
Defined.

(** * What is sent to the log table *)

Lemma requests_to_app ep a b :
  requests_to ep (a ++ b) = requests_to ep a ++ requests_to ep b.
Proof.
  induction a as [|e a IH]; [done|]. destruct e as [r| | |]; cbn; try done.
  destruct (endpoint_eqb _ _); cbn; by rewrite IH.
Qed.

Lemma requests_to_length ep tr : length (requests_to ep tr) = posts ep tr.
Proof.
  unfold posts. induction tr as [|e tr IH]; [done|].
  destruct e as [r| | |]; cbn; try done.
  destruct (endpoint_eqb _ _); cbn; by rewrite IH.
Qed.

Lemma requests_to_none ep tr : posts ep tr = 0%nat → requests_to ep tr = [].
Proof. rewrite <- requests_to_length. by destruct (requests_to ep tr). Qed.

Section Requests.

Variable w : world.

(** The methods leave the configuration alone. *)
Lemma configuration_perform op m :
  configuration (self (perform w m op)) = configuration (self m).
Proof.
  apply (preserves_perform w (λ m', configuration (self m') = configuration (self m))).
  - by intros e m' _ Hm.
  - intros m' Hm. rewrite _authenticate_grant. by rewrite grant_call_configuration.
  - intros m' Hm. rewrite _refresh_token_grant. by rewrite grant_call_configuration.
  - by intros m' Hm.
  - done.
Qed.

(** Every branch of [_get_valid_token] ends in [return self.access_token]. *)
Lemma _get_valid_token_returns_stored m tok m1 :
  _get_valid_token w m = (Ok tok, m1) → tok = access_token (self m1).
Proof.
  destruct (truthy (access_token (self m))) eqn:Hat.
  2:{ rewrite _get_valid_token_absent, authenticate_then_return by done.
      destruct (_authenticate w m) as [[[]|] ?]; by intros [= <- <-]. }
  destruct (token_expired (self m) (current_time w m)) eqn:Hexp.
  2:{ rewrite _get_valid_token_current by done. by intros [= <- <-]. }
  destruct (truthy (refresh_token (self m))) eqn:Hrt.
  2:{ rewrite _get_valid_token_reauth, authenticate_then_return by done.
      destruct (_authenticate w (after_clock m)) as [[[]|] ?]; by intros [= <- <-]. }
  rewrite _get_valid_token_refresh by done.
  unfold try_except. rewrite refresh_then_return.
  destruct (_refresh_token w (after_clock m)) as [[[]|x] m2]; [by intros [= <- <-]|].
  unfold bind at 1, logger, emit. rewrite authenticate_then_return.
  destruct (_authenticate w _) as [[[]|] ?]; by intros [= <- <-].
Qed.

(** The requests of one attempt to the log table: none when no token could
    be had, else one, with the configured url and key, the token and the
    record. *)
Lemma _insert_log_requests entry m :
  ∃ evs,
    trace (_insert_log w entry m).2 = evs ++ trace m
    ∧ self (_insert_log w entry m).2 = self (_get_valid_token w m).2
    ∧ requests_to BotLogs evs
      = match (_get_valid_token w m).1 with
        | Ok tok => [PostBotLogs (url (self m)) (api_key (self m)) tok entry]
        | Raise _ => []
        end.
Proof.
  rewrite _insert_log_run.
  destruct (_get_valid_token_trace w m) as (evs & Htr & _ & _ & Hb & _).
  pose proof (configuration_perform CallGetValidToken m) as Hc. cbn [perform] in Hc.
  destruct (_get_valid_token w m) as [[tok|e] m1]; cbn [fst snd] in *.
  2:{ exists evs. split; [done|]. split; [done|]. by apply requests_to_none. }
  injection Hc as Hu Hk _ _.
  assert (Hreq : requests_to BotLogs (EvPost (insert_request entry tok m1) :: evs)
                 = [PostBotLogs (url (self m)) (api_key (self m)) tok entry]).
  { unfold insert_request. cbn. by rewrite Hu, Hk, (requests_to_none _ _ Hb). }
  destruct (bot_logs w _) as [|response]; cbn [fst snd self trace].
  - exists (EvPost (insert_request entry tok m1) :: evs). by rewrite Htr.
  - destruct (status_raises response); cbn [fst snd self trace].
    + exists (EvPost (insert_request entry tok m1) :: evs). by rewrite Htr.
    + exists (EvLog INFO "Successfully logged bot response to Supabase" []
              :: EvPost (insert_request entry tok m1) :: evs). by rewrite Htr.
Qed.

End Requests.

(** One attempt sends at most one request to the log table. It sends none
    when [_get_valid_token] raised; else it sends the record it was given to
    the configured url with the configured key and, as bearer, the value
    [_get_valid_token] returned, which is the access token the object holds
    from then on. *)
Theorem insert_log_request (w : world) (entry : LogEntry) (m : machine) :
  ∃ evs,
    trace (_insert_log w entry m).2 = evs ++ trace m
    ∧ match (_get_valid_token w m).1 with
      | Ok tok =>
          requests_to BotLogs evs
          = [PostBotLogs (url (self m)) (api_key (self m)) tok entry]
          ∧ tok = access_token (self (_insert_log w entry m).2)
      | Raise _ => requests_to BotLogs evs = []
      end.
Proof.
  destruct (_insert_log_requests w entry m) as (evs & Htr & Hself & Hreq).
  exists evs. split; [done|].
  destruct (_get_valid_token w m) as [[tok|e] m1] eqn:Hget; cbn [fst snd] in *; [|done].
  split; [done|]. rewrite Hself. by apply (_get_valid_token_returns_stored w m).
Qed.

(** The record is built once and sent as it is. Every request [log_success]
    sends to the log table, at most two of them, carries the dict built from
    the arguments and the first clock reading of the call, with the url and
    the key of the object. *)
Theorem log_success_sends_one_record (w : world) (a : LogArgs) (m : machine) (d : Z) :
  datetime_sub (response_time a) (request_time a) = Ok d →
  ∃ evs,
    trace (log_success w a m).2 = evs ++ trace m
    ∧ (length (requests_to BotLogs evs) ≤ 2)%nat
    ∧ ∀ r, r ∈ requests_to BotLogs evs →
        ∃ bearer,
          r = PostBotLogs (url (self m)) (api_key (self m)) bearer
                (log_entry_dict a (utcnow w (clock_reads (trace m))) d).
Proof.
  intros Hd. rewrite log_success_run, Hd, deliver_run.
  set (entry := log_entry_dict a _ d).
  destruct (_insert_log_requests w entry (after_clock m)) as (evs1 & Htr1 & _ & Hreq1).
  pose proof (configuration_perform w (CallInsertLog entry) (after_clock m)) as Hc.
  cbn [perform] in Hc.
  assert (Hone : ∀ r, r ∈ requests_to BotLogs evs1 →
            ∃ bearer, r = PostBotLogs (url (self m)) (api_key (self m)) bearer entry).
  { intros r. rewrite Hreq1. destruct (_get_valid_token w (after_clock m)).1 as [tok|].
    - intros ->%list_elem_of_singleton. by exists tok.
    - by intros ?%elem_of_nil. }
  assert (Hlen1 : (length (requests_to BotLogs evs1) ≤ 1)%nat).
  { rewrite Hreq1. destruct (_get_valid_token w (after_clock m)).1; cbn; lia. }
  destruct (_insert_log w entry (after_clock m)) as [[[]|e] m1]; cbn [fst snd] in *.
  { exists (evs1 ++ [EvNow]). rewrite Htr1. split; [trace_eq|].
    rewrite requests_to_app, app_nil_r. split; [lia|done]. }
  destruct (_insert_log_requests w entry (retry_start m1)) as (evs2 & Htr2 & _ & Hreq2).
  injection Hc as Hu Hk _ _.
  assert (Htwo : ∀ r, r ∈ requests_to BotLogs evs2 →
            ∃ bearer, r = PostBotLogs (url (self m)) (api_key (self m)) bearer entry).
  { intros r. rewrite Hreq2. cbn [retry_start self url api_key with_access_token].
    rewrite Hu, Hk. destruct (_get_valid_token w (retry_start m1)).1 as [tok|].
    - intros ->%list_elem_of_singleton. by exists tok.
    - by intros ?%elem_of_nil. }
  assert (Hlen2 : (length (requests_to BotLogs evs2) ≤ 1)%nat).
  { rewrite Hreq2. destruct (_get_valid_token w (retry_start m1)).1; cbn; lia. }
  assert (Hall : ∀ tail, requests_to BotLogs tail = [] →
            ∃ evs,
              tail ++ evs2 ++ trace (retry_start m1) = evs ++ trace m
              ∧ (length (requests_to BotLogs evs) ≤ 2)%nat
              ∧ ∀ r, r ∈ requests_to BotLogs evs →
                  ∃ bearer, r = PostBotLogs (url (self m)) (api_key (self m)) bearer entry).
  { intros tail Htail.
    exists (tail ++ evs2
            ++ EvInvalidate
            :: EvLog INFO "Log insert failed, attempting to get new token" []
            :: evs1 ++ [EvNow]).
    split; [cbn [retry_start trace]; rewrite Htr1; cbn [after_clock trace]; trace_eq|].
    rewrite !requests_to_app, Htail. cbn [app requests_to].
    rewrite requests_to_app. cbn [requests_to]. rewrite app_nil_r.
    split; [rewrite length_app; lia|].
    intros r [Hr|Hr]%elem_of_app; [by apply Htwo|by apply Hone]. }
  destruct (_insert_log w entry (retry_start m1)) as [[[]|e'] m3]; cbn [fst snd] in *.
  - rewrite Htr2. by apply (Hall []).
  - cbn [abandoned trace]. rewrite Htr2.
    by apply (Hall [EvLog DEBUG "Failed log entry: %s" [ArgEntry entry];
                    EvLog ERROR "Failed to log to Supabase after token refresh: "
                      [ArgExn e']]).
Qed.

(** The first insert is rejected, the second accepted, on the night the
    clocks go back: both requests carry the one record, whose duration is
    the three hours of the wall clock. *)
Lemma log_success_sends_one_record_witness :
  datetime_sub (response_time args_clock_change) (request_time args_clock_change)
  = Ok 10800000000
  ∧ length (requests_to BotLogs
              (trace (log_success world_401_then_200 args_clock_change
                        (fresh env0)).2)) = 2%nat
  ∧ ∃ evs,
      trace (log_success world_401_then_200 args_clock_change (fresh env0)).2
      = evs ++ trace (fresh env0)
      ∧ (length (requests_to BotLogs evs) ≤ 2)%nat
      ∧ ∀ r, r ∈ requests_to BotLogs evs →
          ∃ bearer,
            r = PostBotLogs (url (self (fresh env0))) (api_key (self (fresh env0))) bearer
                  (log_entry_dict args_clock_change
                     (utcnow world_401_then_200 (clock_reads (trace (fresh env0))))
                     10800000000).
Proof.
  split; [reflexivity|]. split; [by vm_compute|].
  exact (log_success_sends_one_record world_401_then_200 args_clock_change (fresh env0)
           10800000000 eq_refl).
Defined.

(** The subtraction of line 178 on two datetimes of one zone object is that
    of their wall clocks; with two zone objects it is the time elapsed. *)
Example datetime_sub_across_clock_change :
  datetime_sub (response_time args_clock_change) (request_time args_clock_change)
  = Ok 10800000000
  ∧ datetime_sub
      {| dt_wall := 1699155000000000; dt_tzinfo := 2; dt_utcoffset := Some (-18000000000) |}
      (request_time args_clock_change)
    = Ok 14400000000.
Proof. by split. Qed.

(** * Whole runs of [log_success] *)

(** The result of [log_success] depends on its two timestamps alone: the
    call returns when both are naive or both aware, whatever the endpoints
    answer, and lets a [TypeError] through when they differ, before any
    request has been sent. *)
Theorem log_success_result (w : world) (a : LogArgs) (m : machine) :
  (log_success w a m).1
  = (if Bool.eqb (aware (request_time a)) (aware (response_time a))
     then Ok tt else Raise TypeError)
  ∧ (aware (request_time a) ≠ aware (response_time a) →
     (log_success w a m).2 = after_clock m).
Proof.
  rewrite log_success_run. unfold datetime_sub, aware.
  destruct (dt_utcoffset (response_time a)), (dt_utcoffset (request_time a));
    try destruct (Nat.eqb _ _);
    cbn [Bool.eqb fst snd]; split; try done; by rewrite ?deliver_returns.
Qed.

(** Two timestamps of one kind, then two of different kinds, with every
    endpoint answering. *)
Lemma log_success_result_witness :
  (log_success world_up args0 (fresh env0)).1 = Ok tt
  ∧ (log_success world_up args_mixed (fresh env0)).1 = Raise TypeError
  ∧ (log_success world_up args_mixed (fresh env0)).2 = after_clock (fresh env0).
Proof.
  split; [exact (proj1 (log_success_result world_up args0 (fresh env0)))|].
  split; [exact (proj1 (log_success_result world_up args_mixed (fresh env0)))|].
  apply (proj2 (log_success_result world_up args_mixed (fresh env0))). by vm_compute.
Defined.

(** With a token in hand, one request. With a truthy access token that has
    no expiry or one the clock has not reached, and the log table answering
    with a status outside 400-599, [log_success] sends the record once with
    the stored token as bearer, calls no grant and leaves the object as it
    was. *)
Theorem log_success_with_current_token (w : world) (a : LogArgs) (m : machine)
    (d : Z) (response : Response) :
  datetime_sub (response_time a) (request_time a) = Ok d →
  truthy (access_token (self m)) = true →
  (∀ e, expires_at (self m) = Some e → current_time w (after_clock m) < e) →
  bot_logs w (posts BotLogs (trace m)) = PostReturns response →
  status_raises response = false →
  log_success w a m
  = (Ok tt,
     {| self := self m;
        trace := EvLog INFO "Successfully logged bot response to Supabase" []
                 :: EvPost (PostBotLogs (url (self m)) (api_key (self m))
                              (access_token (self m))
                              (log_entry_dict a (utcnow w (clock_reads (trace m))) d))
                 :: EvNow :: EvNow :: trace m |}).
Proof.
  intros Hd Hat Hexp Hanswer Hstatus.
  rewrite log_success_run, Hd, deliver_run, _insert_log_run.
  rewrite _get_valid_token_current; [|done|].
  2:{ unfold token_expired. cbn [after_clock self].
      destruct (expires_at (self m)) as [e|] eqn:He; [|done].
      apply andb_false_iff. right. rewrite Z.geb_leb. apply Z.leb_gt. by apply Hexp. }
  cbn [after_clock self trace]. unfold posts in *. cbn [count is_post].
  by rewrite Hanswer, Hstatus.
Qed.

Lemma log_success_with_current_token_witness :
  datetime_sub (response_time args0) (request_time args0) = Ok 1000000
  ∧ truthy (access_token (self (holding (PyStr "tok") (PyStr "ref") (Some 1700003600))))
    = true
  ∧ bot_logs world_up
      (posts BotLogs (trace (holding (PyStr "tok") (PyStr "ref") (Some 1700003600))))
    = PostReturns (response_200 None)
  ∧ (log_success world_up args0 (holding (PyStr "tok") (PyStr "ref") (Some 1700003600))).1
    = Ok tt
  ∧ self (log_success world_up args0
            (holding (PyStr "tok") (PyStr "ref") (Some 1700003600))).2
    = self (holding (PyStr "tok") (PyStr "ref") (Some 1700003600))
  ∧ tally (trace (log_success world_up args0
                    (holding (PyStr "tok") (PyStr "ref") (Some 1700003600))).2)
    = (0, 0, 1, 0)%nat.
Proof.
  split; [reflexivity|]. split; [reflexivity|]. split; [reflexivity|].
  rewrite (log_success_with_current_token world_up args0
             (holding (PyStr "tok") (PyStr "ref") (Some 1700003600)) 1000000
             (response_200 None) eq_refl eq_refl);
    [ by repeat split
    | intros e [= <-]; by vm_compute
    | reflexivity
    | reflexivity ].
Defined.

Section Retry.

Variable w : world.

(** An attempt that starts without a token: one password grant, no
    refresh, at most one request to the log table. *)
Lemma _insert_log_trace_absent entry m :
  truthy (access_token (self m)) = false →
  ∃ evs, trace (_insert_log w entry m).2 = evs ++ trace m
         ∧ posts PasswordGrant evs = 1%nat
         ∧ posts RefreshGrant evs = 0%nat
         ∧ (posts BotLogs evs ≤ 1)%nat.
Proof.
  intros Hno.
  rewrite _insert_log_run, _get_valid_token_absent, authenticate_then_return by done.
  destruct (_authenticate_trace w m) as (evs & Htr & Ht).
  injection Ht as Hp Hr Hb _.
  destruct (_authenticate w m) as [[[]|x] m1]; cbn [fst snd] in *.
  2:{ exists evs. repeat split; first [done | lia]. }
  destruct (bot_logs w _) as [|response]; [|destruct (status_raises response)];
    cbn [fst snd trace].
  1,2: exists (EvPost (insert_request entry (access_token (self m1)) m1) :: evs).
  3: exists (EvLog INFO "Successfully logged bot response to Supabase" []
             :: EvPost (insert_request entry (access_token (self m1)) m1) :: evs).
  all: rewrite Htr; split; [done|].
  all: unfold posts in *; cbn [count is_post endpoint_of insert_request endpoint_eqb].
  all: rewrite Hp, Hr, Hb; repeat split; lia.
Qed.

End Retry.

(** A retry that cannot authenticate. When the first attempt raised and
    the password grant then offers no access token (no response, a status
    from 400 to 599, a body without ["access_token"]), the retry calls the
    password grant once and never reaches the log table; [log_success]
    writes its closing error record and returns, and the object is left
    without an access token, the other fields as the first attempt left
    them. *)
Theorem log_success_retry_without_grant (w : world) (a : LogArgs) (m m0 m1 : machine)
    (entry : LogEntry) (e : exn) :
  build_log_entry w a m = (Ok entry, m0) →
  _insert_log w entry m0 = (Raise e, m1) →
  offered_access_token (password_grant w (posts PasswordGrant (trace m1))) = None →
  ∃ e' evs,
    log_success w a m
    = (Ok tt,
       abandoned entry e'
         {| self := with_access_token PyNone (self m1);
            trace := evs ++ trace (retry_start m1) |})
    ∧ tally evs = (1, 0, 0, 0)%nat.
Proof.
  intros Hbuild Hfirst Hoff.
  unfold log_success, bind. rewrite Hbuild, deliver_run, Hfirst.
  rewrite _insert_log_run, _get_valid_token_absent, authenticate_then_return by done.
  destruct (_authenticate_trace w (retry_start m1)) as (evs & Htr & Ht).
  rewrite _authenticate_grant in *.
  match goal with
  | |- context [grant_call w ?mk ?d ?f ?g (retry_start m1)] =>
      destruct (grant_call_not_offered w mk d f g (retry_start m1) Hoff)
        as (e' & Hraise & Hself)
  end.
  destruct (grant_call _ _ _ _ _ _) as [r m3]; cbn [fst snd] in *. subst r.
  exists e', evs. split; [|done].
  unfold abandoned. cbn [self trace]. by rewrite Hself, Htr.
Qed.

Lemma log_success_retry_without_grant_witness :
  build_log_entry world_down args0 (fresh env0) = (Ok entry0, after_clock (fresh env0))
  ∧ _insert_log world_down entry0 (after_clock (fresh env0))
    = (Raise (UnboundLocalError "response"),
       (_insert_log world_down entry0 (after_clock (fresh env0))).2)
  ∧ ∃ e' evs,
      log_success world_down args0 (fresh env0)
      = (Ok tt,
         abandoned entry0 e'
           {| self := with_access_token PyNone
                        (self (_insert_log world_down entry0 (after_clock (fresh env0))).2);
              trace := evs
                       ++ trace (retry_start
                                   (_insert_log world_down entry0
                                      (after_clock (fresh env0))).2) |})
      ∧ tally evs = (1, 0, 0, 0)%nat.
Proof.
  split; [reflexivity|]. split; [reflexivity|].
  exact (log_success_retry_without_grant world_down args0 (fresh env0)
           (after_clock (fresh env0))
           (_insert_log world_down entry0 (after_clock (fresh env0))).2
           entry0 (UnboundLocalError "response") eq_refl eq_refl eq_refl).
Defined.

(** The requests of one call. [log_success] sends at most five: at most
    two to the password grant, one to the refresh grant and two to the log
    table. *)
Theorem log_success_request_bound (w : world) (a : LogArgs) (m : machine) :
  ∃ evs,
    trace (log_success w a m).2 = evs ++ trace m
    ∧ (posts PasswordGrant evs ≤ 2)%nat
    ∧ (posts RefreshGrant evs ≤ 1)%nat
    ∧ (posts BotLogs evs ≤ 2)%nat.
Proof.
  rewrite log_success_run.
  destruct (datetime_sub (response_time a) (request_time a)) as [d|e].
  2:{ exists [EvNow]. repeat split; cbn; lia. }
  rewrite deliver_run. set (entry := log_entry_dict a _ d).
  destruct (_insert_log_trace w entry (after_clock m))
    as (evs1 & Htr1 & Hp1 & Hr1 & Hb1 & _).
  destruct (_insert_log w entry (after_clock m)) as [[[]|e] m1]; cbn [fst snd] in *.
  { exists (evs1 ++ [EvNow]). rewrite Htr1. split; [trace_eq|].
    unfold posts in *. rewrite !count_app. cbn. repeat split; lia. }
  destruct (_insert_log_trace_absent w entry (retry_start m1) eq_refl)
    as (evs2 & Htr2 & Hp2 & Hr2 & Hb2).
  assert (Hsum : ∀ tail, tally tail = (0, 0, 0, 0)%nat →
            ∃ evs,
              tail ++ evs2 ++ trace (retry_start m1) = evs ++ trace m
              ∧ (posts PasswordGrant evs ≤ 2)%nat
              ∧ (posts RefreshGrant evs ≤ 1)%nat
              ∧ (posts BotLogs evs ≤ 2)%nat).
  { intros tail [= Htp Htr Htb _].
    exists (tail ++ evs2
            ++ EvInvalidate
            :: EvLog INFO "Log insert failed, attempting to get new token" []
            :: evs1 ++ [EvNow]).
    split; [cbn [retry_start trace]; rewrite Htr1; cbn [after_clock trace]; trace_eq|].
    unfold posts in *. rewrite !count_app. cbn. rewrite !count_app. cbn.
    repeat split; lia. }
  destruct (_insert_log w entry (retry_start m1)) as [[[]|e'] m3]; cbn [fst snd] in *.
  - rewrite Htr2. by apply (Hsum []).
  - cbn [abandoned trace]. rewrite Htr2.
    by apply (Hsum [EvLog DEBUG "Failed log entry: %s" [ArgEntry entry];
                    EvLog ERROR "Failed to log to Supabase after token refresh: "
                      [ArgExn e']]).
Qed.

Lemma log_success_request_bound_witness :
  tally (trace (log_success world_refresh_down args0
                  (holding (PyStr "old") (PyStr "ref") (Some 1600000000))).2)
  = (2, 1, 2, 1)%nat
  ∧ ∃ evs,
      trace (log_success world_refresh_down args0
               (holding (PyStr "old") (PyStr "ref") (Some 1600000000))).2
      = evs ++ trace (holding (PyStr "old") (PyStr "ref") (Some 1600000000))
      ∧ (posts PasswordGrant evs ≤ 2)%nat
      ∧ (posts RefreshGrant evs ≤ 1)%nat
      ∧ (posts BotLogs evs ≤ 2)%nat.
Proof.
  split; [by vm_compute|].
  exact (log_success_request_bound world_refresh_down args0
           (holding (PyStr "old") (PyStr "ref") (Some 1600000000))).
Defined.

(** * What the log says *)

Lemma records_app a b :
  records (a ++ b) = ((records a).1 + (records b).1, (records a).2 + (records b).2)%nat.
Proof. unfold records. by rewrite !count_app. Qed.

Section Records.

Variable w : world.

(** The token methods write neither record. *)
Lemma _authenticate_records m :
  ∃ evs, trace (_authenticate w m).2 = evs ++ trace m ∧ records evs = (0, 0)%nat.
Proof.
  unfold _authenticate. unfold_monad. run_cases.
  all: give_events; reflexivity.
Qed.

Lemma _refresh_token_records m :
  ∃ evs, trace (_refresh_token w m).2 = evs ++ trace m ∧ records evs = (0, 0)%nat.
Proof.
  unfold _refresh_token. unfold_monad. run_cases.
  all: give_events; reflexivity.
Qed.

Lemma _get_valid_token_records m :
  ∃ evs, trace (_get_valid_token w m).2 = evs ++ trace m ∧ records evs = (0, 0)%nat.
Proof.
  destruct (truthy (access_token (self m))) eqn:Hat.
  2:{ rewrite _get_valid_token_absent, authenticate_then_return by done.
      destruct (_authenticate_records m) as (evs & Htr & Hrec). exists evs.
      by destruct (_authenticate w m) as [[[]|] ?]. }
  destruct (token_expired (self m) (current_time w m)) eqn:Hexp.
  2:{ rewrite _get_valid_token_current by done. by exists [EvNow]. }
  destruct (truthy (refresh_token (self m))) eqn:Hrt.
  2:{ rewrite _get_valid_token_reauth, authenticate_then_return by done.
      destruct (_authenticate_records (after_clock m)) as (evs & Htr & Hrec).
      exists (evs ++ [EvNow]).
      destruct (_authenticate w (after_clock m)) as [[[]|] ?]; cbn [fst snd] in *.
      all: rewrite Htr, records_app, Hrec; split; [trace_eq|done]. }
  rewrite _get_valid_token_refresh by done.
  unfold try_except. rewrite refresh_then_return.
  destruct (_refresh_token_records (after_clock m)) as (evs_r & Htr & Hrec).
  destruct (_refresh_token w (after_clock m)) as [[[]|x] m1]; cbn [fst snd] in *.
  { exists (evs_r ++ [EvNow]). rewrite Htr, records_app, Hrec. split; [trace_eq|done]. }
  unfold bind at 1, logger, emit. rewrite authenticate_then_return.
  set (m2 := {| self := self m1; trace := _ :: trace m1 |}).
  destruct (_authenticate_records m2) as (evs_a & Hta & Hreca).
  exists (evs_a ++ EvLog WARNING "Token refresh failed, falling back to full auth: "
                     [ArgExn x] :: evs_r ++ [EvNow]).
  assert (Hrecs : records (evs_a ++ EvLog WARNING
                     "Token refresh failed, falling back to full auth: "
                     [ArgExn x] :: evs_r ++ [EvNow]) = (0, 0)%nat).
  { rewrite records_app, Hreca.
    change (EvLog ?l ?s ?a :: ?t) with ([EvLog l s a] ++ t).
    by rewrite !records_app, Hrec. }
  destruct (_authenticate w m2) as [[[]|y] m3]; cbn [fst snd] in *.
  all: rewrite Hta; subst m2; cbn [trace]; rewrite Htr; split; [trace_eq|done].
Qed.

(** One attempt writes the record of success when it returns and not
    otherwise. *)
Lemma _insert_log_records entry m :
  ∃ evs,
    trace (_insert_log w entry m).2 = evs ++ trace m
    ∧ records evs = match (_insert_log w entry m).1 with
                    | Ok _ => (1, 0)%nat
                    | Raise _ => (0, 0)%nat
                    end.
Proof.
  rewrite _insert_log_run.
  destruct (_get_valid_token_records m) as (evs & Htr & Hrec).
  destruct (_get_valid_token w m) as [[tok|e] m1]; cbn [fst snd] in *; [|by exists evs].
  destruct (bot_logs w _) as [|response]; [|destruct (status_raises response)];
    cbn [fst snd trace].
  1,2: exists (EvPost (insert_request entry tok m1) :: evs).
  3: exists (EvLog INFO "Successfully logged bot response to Supabase" []
             :: EvPost (insert_request entry tok m1) :: evs).
  all: rewrite Htr; split; [done|].
  all: change (?x :: ?y :: evs) with ([x; y] ++ evs);
       change (?x :: evs) with ([x] ++ evs); by rewrite records_app, Hrec.
Qed.

End Records.

(** When one attempt returns. [_insert_log] returns exactly when
    [_get_valid_token] returned and the log table answered its next request
    with a status outside 400-599; it writes its record of success then and
    only then. The body of the answer is not looked at. *)
Theorem insert_log_returns_iff_accepted (w : world) (entry : LogEntry) (m : machine) :
  ((_insert_log w entry m).1 = Ok tt
   ↔ ∃ tok response,
       (_get_valid_token w m).1 = Ok tok
       ∧ bot_logs w (posts BotLogs (trace m)) = PostReturns response
       ∧ status_raises response = false)
  ∧ ∃ evs,
      trace (_insert_log w entry m).2 = evs ++ trace m
      ∧ count is_insert_success evs
        = match (_insert_log w entry m).1 with Ok _ => 1%nat | Raise _ => 0%nat end.
Proof.
  split.
  - rewrite _insert_log_run.
    destruct (_get_valid_token_trace w m) as (evs & Htr & _ & _ & Hb & _).
    destruct (_get_valid_token w m) as [[tok|e] m1]; cbn [fst snd] in *.
    2:{ split; [done|]. by intros (? & ? & [=] & _). }
    assert (Hn : posts BotLogs (trace m1) = posts BotLogs (trace m)).
    { rewrite Htr. unfold posts in *. by rewrite count_app, Hb. }
    rewrite Hn.
    destruct (bot_logs w _) as [|response]; cbn [fst snd].
    { split; [done|]. by intros (? & ? & _ & [=] & _). }
    destruct (status_raises response) eqn:Hs; cbn [fst snd].
    + split; [done|]. intros (? & ? & _ & [= <-] & Hs'). by rewrite Hs in Hs'.
    + split; [|done]. intros _. by exists tok, response.
  - destruct (_insert_log_records w entry m) as (evs & Htr & Hrec).
    exists evs. split; [done|].
    destruct (_insert_log w entry m).1; by injection Hrec.
Qed.

(** The log of one call tells its outcome. Once the record is built,
    [log_success] writes the record of success once and no closing error
    when one of its two attempts returned, and the closing error once and no
    record of success when both raised. *)
Theorem log_success_records (w : world) (a : LogArgs) (m : machine) (d : Z) :
  datetime_sub (response_time a) (request_time a) = Ok d →
  ∃ evs,
    trace (log_success w a m).2 = evs ++ trace m
    ∧ records evs
      = match _insert_log w (log_entry_dict a (utcnow w (clock_reads (trace m))) d)
                (after_clock m) with
        | (Ok _, _) => (1, 0)%nat
        | (Raise _, m1) =>
            match (_insert_log w (log_entry_dict a (utcnow w (clock_reads (trace m))) d)
                     (retry_start m1)).1 with
            | Ok _ => (1, 0)%nat
            | Raise _ => (0, 1)%nat
            end
        end.
Proof.
  intros Hd. rewrite log_success_run, Hd, deliver_run.
  set (entry := log_entry_dict a _ d).
  destruct (_insert_log_records w entry (after_clock m)) as (evs1 & Htr1 & Hrec1).
  destruct (_insert_log w entry (after_clock m)) as [[[]|e] m1]; cbn [fst snd] in *.
  { exists (evs1 ++ [EvNow]). rewrite Htr1, records_app, Hrec1. split; [trace_eq|done]. }
  destruct (_insert_log_records w entry (retry_start m1)) as (evs2 & Htr2 & Hrec2).
  assert (Hmid : ∀ tail,
            records (tail ++ evs2
                     ++ EvInvalidate
                     :: EvLog INFO "Log insert failed, attempting to get new token" []
                     :: evs1 ++ [EvNow])
            = ((records tail).1 + (records evs2).1, (records tail).2 + (records evs2).2)%nat).
  { intros tail. rewrite !records_app.
    change (EvInvalidate :: ?x :: ?t) with ([EvInvalidate; x] ++ t).
    rewrite !records_app, Hrec1. cbn. f_equal; lia. }
  destruct (_insert_log w entry (retry_start m1)) as [[[]|e'] m3]; cbn [fst snd] in *.
  - exists ([] ++ evs2
            ++ EvInvalidate
            :: EvLog INFO "Log insert failed, attempting to get new token" []
            :: evs1 ++ [EvNow]).
    rewrite Hmid, Hrec2, Htr2. cbn [retry_start trace]. rewrite Htr1.
    split; [cbn [after_clock trace]; trace_eq|done].
  - exists ([EvLog DEBUG "Failed log entry: %s" [ArgEntry entry];
             EvLog ERROR "Failed to log to Supabase after token refresh: " [ArgExn e']]
            ++ evs2
            ++ EvInvalidate
            :: EvLog INFO "Log insert failed, attempting to get new token" []
            :: evs1 ++ [EvNow]).
    rewrite Hmid, Hrec2. cbn [abandoned trace]. rewrite Htr2.
    cbn [retry_start trace]. rewrite Htr1.
    split; [cbn [after_clock trace]; trace_eq|done].
Qed.

(** No endpoint reachable: the closing error, and no record of success. *)
Lemma log_success_records_witness :
  datetime_sub (response_time args0) (request_time args0) = Ok 1000000
  ∧ records (trace (log_success world_down args0 (fresh env0)).2) = (0, 1)%nat
  ∧ records (trace (log_success world_401_then_200 args0 (fresh env0)).2) = (1, 0)%nat
  ∧ ∃ evs,
      trace (log_success world_down args0 (fresh env0)).2 = evs ++ trace (fresh env0)
      ∧ records evs = (0, 1)%nat.
Proof.
  split; [reflexivity|]. split; [by vm_compute|]. split; [by vm_compute|].
  exact (log_success_records world_down args0 (fresh env0) 1000000 eq_refl).
Defined.

(** * A grant that fails half way *)

Section PartialStore.

Variable w : world.
Variable mk : SupabaseLogger → request.
Variables done failed debug : string.

(** The two places where a grant call fails after it has begun to assign:
    the refresh token is missing, or the lifetime cannot be added to the
    clock. *)
Lemma grant_call_partial m response d at_ :
  answer w (endpoint_of (mk (self m))) (posts (endpoint_of (mk (self m))) (trace m))
  = PostReturns response →
  status_raises response = false →
  json response = Some (PyDict d) →
  d !! "access_token" = Some at_ →
  match d !! "refresh_token" with
  | None =>
      (grant_call w mk done failed debug m).1 = Raise (KeyError "refresh_token")
      ∧ self (grant_call w mk done failed debug m).2 = with_access_token at_ (self m)
  | Some rt =>
      expires_in_seconds d = None →
      (grant_call w mk done failed debug m).1 = Raise TypeError
      ∧ self (grant_call w mk done failed debug m).2
        = with_refresh_token rt (with_access_token at_ (self m))
  end.
Proof.
  intros Ho Hs Hj Ha. unfold grant_call, expires_in_seconds, status_raises in *.
  unfold_monad. rewrite Ho. cbn [self trace]. rewrite Hs, Hj, Ha. cbn [self trace].
  destruct (d !! "refresh_token") as [rt|]; [|done]. cbn [self trace].
  by destruct (d !! "expires_in") as [[]|].
Qed.

End PartialStore.

(** A grant that fails half way leaves its first fields behind. When the
    answer of the password grant carries an access token but no refresh
    token, [_authenticate] raises [KeyError] with the new access token
    stored and the refresh token as it was; when it carries both but a
    lifetime that cannot be added to an int (null, a string, a list, an
    object), it raises [TypeError] with both tokens stored. In either case
    [expires_at] is the old one, and if that was [None] and the new token
    is truthy, [_get_valid_token] serves the new token from then on without
    any request, in every world and at every clock reading. *)
Theorem authenticate_partial_store (w : world) (m : machine) (response : Response)
    (d : gmap string pyval) (at_ : pyval) :
  password_grant w (posts PasswordGrant (trace m)) = PostReturns response →
  status_raises response = false →
  json response = Some (PyDict d) →
  d !! "access_token" = Some at_ →
  (d !! "refresh_token" = None →
     (_authenticate w m).1 = Raise (KeyError "refresh_token")
     ∧ credential (self (_authenticate w m).2)
       = (at_, refresh_token (self m), expires_at (self m)))
  ∧ (∀ rt, d !! "refresh_token" = Some rt → expires_in_seconds d = None →
     (_authenticate w m).1 = Raise TypeError
     ∧ credential (self (_authenticate w m).2) = (at_, rt, expires_at (self m)))
  ∧ (d !! "refresh_token" = None ∨ expires_in_seconds d = None →
     expires_at (self m) = None → truthy at_ = true →
     ∀ w', _get_valid_token w' (_authenticate w m).2
           = (Ok at_, after_clock (_authenticate w m).2)).
Proof.
  intros Ho Hs Hj Ha. rewrite _authenticate_grant.
  match goal with
  | |- context [grant_call w ?mk ?dn ?f ?g m] =>
      pose proof (grant_call_partial w mk dn f g m response d at_ Ho Hs Hj Ha) as Hcase;
      set (run := grant_call w mk dn f g m) in *
  end.
  split; [|split].
  - intros Hr. rewrite Hr in Hcase. destruct Hcase as [Hres Hself].
    by rewrite Hres, Hself.
  - intros rt Hr He. rewrite Hr in Hcase. destruct (Hcase He) as [Hres Hself].
    by rewrite Hres, Hself.
  - intros Hbad Hnone Htruthy w'.
    assert (Hheld : access_token (self run.2) = at_
                    ∧ expires_at (self run.2) = expires_at (self m)).
    { destruct (d !! "refresh_token") as [rt|] eqn:Hr.
      - destruct Hbad as [[=]|He]. destruct (Hcase He) as [_ Hself]. by rewrite Hself.
      - destruct Hcase as [_ Hself]. by rewrite Hself. }
    destruct Hheld as [Hat Hexp].
    rewrite _get_valid_token_current; [by rewrite Hat|by rewrite Hat|].
    unfold token_expired. by rewrite Hexp, Hnone.
Qed.

(** The two bodies on a fresh object: without a refresh token, and with a
    lifetime that is a string. The token left behind is served. *)
Lemma authenticate_partial_store_witness :
  (_authenticate world_truncated (fresh env0)).1 = Raise (KeyError "refresh_token")
  ∧ credential (self (_authenticate world_truncated (fresh env0)).2)
    = (PyStr "tok", PyNone, None)
  ∧ (_authenticate world_bad_lifetime (fresh env0)).1 = Raise TypeError
  ∧ credential (self (_authenticate world_bad_lifetime (fresh env0)).2)
    = (PyStr "tok", PyStr "ref", None)
  ∧ _get_valid_token world_up (_authenticate world_bad_lifetime (fresh env0)).2
    = (Ok (PyStr "tok"), after_clock (_authenticate world_bad_lifetime (fresh env0)).2).
Proof.
  destruct (authenticate_partial_store world_truncated (fresh env0)
              (response_200 (Some truncated_body))
              {[ "access_token" := PyStr "tok" ]} (PyStr "tok")
              eq_refl eq_refl eq_refl eq_refl)
    as (Hmissing & _ & _).
  destruct (authenticate_partial_store world_bad_lifetime (fresh env0)
              (response_200 (Some bad_lifetime_body))
              (<["access_token" := PyStr "tok"]>
                 (<["refresh_token" := PyStr "ref"]>
                    (<["expires_in" := PyStr "3600"]> ∅)))
              (PyStr "tok") eq_refl eq_refl eq_refl eq_refl)
    as (_ & Hlifetime & Hserved).
  destruct (Hmissing eq_refl) as [Hres1 Hcred1].
  destruct (Hlifetime (PyStr "ref") eq_refl eq_refl) as [Hres2 Hcred2].
  split; [exact Hres1|]. split; [exact Hcred1|].
  split; [exact Hres2|]. split; [exact Hcred2|].
  exact (Hserved (or_intror eq_refl) eq_refl eq_refl world_up).
Defined.

(** * One call after another *)

(** A token is obtained once and used again. When a call of [log_success]
    that starts without a token is answered by a complete grant with a
    truthy access token and its insert is accepted, the next call, made
    before the token expires and accepted as well, sends its record with the
    same token: the two calls together send one request to the password
    grant, none to the refresh grant and two to the log table. *)
Theorem log_success_twice_one_grant (w : world) (a1 a2 : LogArgs) (m : machine)
    (d1 d2 : Z) (at_ rt : pyval) (ei : Z) (r1 r2 : Response) :
  datetime_sub (response_time a1) (request_time a1) = Ok d1 →
  datetime_sub (response_time a2) (request_time a2) = Ok d2 →
  truthy (access_token (self m)) = false →
  complete_grant (password_grant w (posts PasswordGrant (trace m))) at_ rt ei →
  truthy at_ = true →
  bot_logs w (posts BotLogs (trace m)) = PostReturns r1 →
  status_raises r1 = false →
  bot_logs w (S (posts BotLogs (trace m))) = PostReturns r2 →
  status_raises r2 = false →
  int_timestamp (utcnow w (3 + clock_reads (trace m)))
  < int_timestamp (utcnow w (1 + clock_reads (trace m))) + ei →
  (log_success w a1 m).1 = Ok tt
  ∧ (log_success w a2 (log_success w a1 m).2).1 = Ok tt
  ∧ ∃ evs,
      trace (log_success w a2 (log_success w a1 m).2).2 = evs ++ trace m
      ∧ tally evs = (1, 0, 2, 0)%nat
      ∧ requests_to BotLogs evs
        = [PostBotLogs (url (self m)) (api_key (self m)) at_
             (log_entry_dict a2 (utcnow w (2 + clock_reads (trace m))) d2);
           PostBotLogs (url (self m)) (api_key (self m)) at_
             (log_entry_dict a1 (utcnow w (clock_reads (trace m))) d1)].
Proof.
  intros Hd1 Hd2 Hno Hgrant Hat Hb1 Hs1 Hb2 Hs2 Hclock.
  assert (Hfirst : log_success w a1 m
    = (Ok tt,
       {| self := with_expires_at
                    (Some (int_timestamp (utcnow w (1 + clock_reads (trace m))) + ei))
                    (with_refresh_token rt (with_access_token at_ (self m)));
          trace := EvLog INFO "Successfully logged bot response to Supabase" []
                   :: EvPost (PostBotLogs (url (self m)) (api_key (self m)) at_
                                (log_entry_dict a1 (utcnow w (clock_reads (trace m))) d1))
                   :: EvLog INFO "Successfully authenticated with Supabase" []
                   :: EvNow
                   :: EvPost (PostPasswordGrant (url (self m)) (api_key (self m))
                                (auth_email (self m)) (auth_password (self m)))
                   :: EvNow :: trace m |})).
  { rewrite log_success_run, Hd1, deliver_run, _insert_log_run.
    rewrite _get_valid_token_absent, authenticate_then_return, _authenticate_grant by done.
    erewrite grant_call_complete by exact Hgrant.
    cbn [after_clock self trace]. unfold posts in *. cbn [count is_post endpoint_of endpoint_eqb].
    by rewrite Hb1, Hs1. }
  rewrite Hfirst. cbn [fst snd]. split; [done|].
  rewrite log_success_run, Hd2, deliver_run, _insert_log_run.
  rewrite _get_valid_token_current; [|done|].
  2:{ unfold token_expired, current_time, clock_reads in *.
      cbn [after_clock self trace expires_at with_expires_at count is_now].
      apply andb_false_iff. right. rewrite Z.geb_leb. apply Z.leb_gt.
      exact Hclock. }
  cbn [after_clock self trace]. unfold posts, clock_reads in *.
  cbn [count is_post is_now endpoint_of endpoint_eqb Nat.add].
  rewrite Hb2, Hs2. cbn [fst snd trace]. split; [done|].
  eexists (_ :: _ :: _ :: _ :: _ :: _ :: _ :: _ :: _ :: _ :: []).
  split; [reflexivity|]. split; reflexivity.
Qed.

Lemma log_success_twice_one_grant_witness :
  truthy (access_token (self (fresh env0))) = false
  ∧ (log_success world_up args0 (fresh env0)).1 = Ok tt
  ∧ (log_success world_up args0 (log_success world_up args0 (fresh env0)).2).1 = Ok tt
  ∧ tally (trace (log_success world_up args0
                    (log_success world_up args0 (fresh env0)).2).2)
    = (1, 0, 2, 0)%nat.
Proof.
  split; [reflexivity|].
  destruct (log_success_twice_one_grant world_up args0 args0 (fresh env0)
              1000000 1000000 (PyStr "tok") (PyStr "ref") 3600
              (response_200 None) (response_200 None)
              eq_refl eq_refl eq_refl (complete_grant_body 0) eq_refl
              eq_refl eq_refl eq_refl eq_refl eq_refl)
    as (H1 & H2 & _).
  split; [exact H1|]. split; [exact H2|]. by vm_compute.
Defined.
